(** * Arbitrage core: detection engine, quota tracker, circuit breaker,
      fetch coordinator and risk assessor

    A shallow embedding of
      app/core/services/enhanced_arbitrage_engine.py
      app/core/services/parallel_arbitrage_processor.py
      app/core/services/cross_market_analyzer.py
    Python floats and ints are rationals ([Q]) with exact arithmetic, so
    equalities between computed amounts are stated with [==].  JSON game
    data is a dynamically typed [value]; every Python operation that can
    raise returns a [result]. *)

From Stdlib Require Import QArith Qabs Lqa Lia String List.
From stdpp Require Import gmap strings list fin_maps.

(** ** Exceptions and the error monad *)

(** The exceptions the modelled code can raise.  The two quota
    constructors stand for the plain [Exception] of [consume_quota] with
    the message "Daily quota limit exceeded" or "Hourly quota limit
    exceeded". *)
Inductive exn : Type :=
  | AttributeError | TypeError | KeyError | ValueError
  | ZeroDivisionError | StopIteration | TimeoutError
  | DailyQuotaExceeded | HourlyQuotaExceeded.

Inductive result (A : Type) : Type :=
  | Ok (a : A)
  | Raise (e : exn).
Arguments Ok {A} a.
Arguments Raise {A} e.

Definition bind {A B} (c : result A) (k : A -> result B) : result B :=
  match c with
  | Ok a => k a
  | Raise e => Raise e
  end.

Notation "'let*' x ':=' c 'in' k" := (bind c (fun x => k))
  (at level 10, x name, c at level 100, k at level 200).

(** [try: body except Exception: return dflt].  Every constructor of
    [exn] is a subclass of Python's [Exception]. *)
Definition try_except {A} (body : result A) (dflt : A) : result A :=
  match body with
  | Ok a => Ok a
  | Raise _ => Ok dflt
  end.

(** A [for] loop whose body may raise: the accumulator is the mutated
    local, the first exception leaves the loop. *)
Fixpoint foldM {A B} (f : A -> B -> result A) (acc : A) (l : list B)
  : result A :=
  match l with
  | [] => Ok acc
  | x :: l' => let* acc' := f acc x in foldM f acc' l'
  end.

Fixpoint mapM {A B} (f : A -> result B) (l : list A) : result (list B) :=
  match l with
  | [] => Ok []
  | x :: l' => let* y := f x in let* ys := mapM f l' in Ok (y :: ys)
  end.

(** ** Numbers *)

Definition Qltb (x y : Q) : bool := negb (Qle_bool y x).
Definition Qleb (x y : Q) : bool := Qle_bool x y.

(** Python's two-argument [min] and [max]: the first argument wins ties. *)
Definition py_min (a b : Q) : Q := if Qltb b a then b else a.
Definition py_max (a b : Q) : Q := if Qltb a b then b else a.

(** [sum(xs)], starting from 0 and adding left to right. *)
Definition py_sum (xs : list Q) : Q := fold_left Qplus xs 0%Q.

(** [a / b] on numbers. *)
Definition py_div (a b : Q) : result Q :=
  if Qeq_bool b 0 then Raise ZeroDivisionError else Ok (a / b)%Q.

(** ** JSON values

    [bool] is a subclass of [int] in Python ([True == 1], same hash, same
    arithmetic, comparison and formatting), so JSON [true]/[false] are
    [VNum 1]/[VNum 0].  NaN and infinities are outside the model. *)

#[local] Set Warnings "-register-all".
Inductive value : Type :=
  | VNone
  | VNum (q : Q)
  | VStr (s : string)
  | VList (l : list value)
  | VDict (d : list (string * value)).

Fixpoint assoc_str {V} (k : string) (d : list (string * V)) : option V :=
  match d with
  | [] => None
  | (k', v) :: d' => if String.eqb k k' then Some v else assoc_str k d'
  end.

(** [v.get(k, dflt)]: only a dict has [get]. *)
Definition py_get (v : value) (k : string) (dflt : value) : result value :=
  match v with
  | VDict d => Ok (match assoc_str k d with Some x => x | None => dflt end)
  | _ => Raise AttributeError
  end.

Fixpoint str_chars (s : string) : list value :=
  match s with
  | EmptyString => []
  | String c s' => VStr (String c EmptyString) :: str_chars s'
  end.

(** [for x in v]: a list yields its items, a dict its keys, a str its
    characters; [None] and numbers are not iterable. *)
Definition py_iter (v : value) : result (list value) :=
  match v with
  | VList l => Ok l
  | VDict d => Ok (map (fun kv => VStr (fst kv)) d)
  | VStr s => Ok (str_chars s)
  | VNone | VNum _ => Raise TypeError
  end.

(** Truth value of [v] in a condition. *)
Definition py_truthy (v : value) : bool :=
  match v with
  | VNone => false
  | VNum q => negb (Qeq_bool q 0)
  | VStr s => negb (String.eqb s "")
  | VList l => match l with [] => false | _ => true end
  | VDict d => match d with [] => false | _ => true end
  end.

(** [v == s] for a str [s]; [==] never raises. *)
Definition py_eq_str (v : value) (s : string) : bool :=
  match v with
  | VStr s' => String.eqb s' s
  | _ => false
  end.

(** The operand of an ordering against a number ([v > 0]): anything but
    a number is a [TypeError]. *)
Definition py_num (v : value) : result Q :=
  match v with
  | VNum x => Ok x
  | _ => Raise TypeError
  end.

(** [abs(v)]. *)
Definition py_abs (v : value) : result Q :=
  match v with
  | VNum x => Ok (Qabs x)
  | _ => Raise TypeError
  end.

(** ** Hashable keys and insertion-ordered dicts *)

Inductive hkey : Type :=
  | KNone
  | KNum (q : Q)
  | KStr (s : string).

(** [hash(v)]: lists and dicts are unhashable. *)
Definition py_hash (v : value) : result hkey :=
  match v with
  | VNone => Ok KNone
  | VNum q => Ok (KNum q)
  | VStr s => Ok (KStr s)
  | VList _ | VDict _ => Raise TypeError
  end.

(** Key equality: numbers by value, strings by content. *)
Definition key_eqb (a b : hkey) : bool :=
  match a, b with
  | KNone, KNone => true
  | KNum x, KNum y => Qeq_bool x y
  | KStr s, KStr t => String.eqb s t
  | _, _ => false
  end.

(** A Python dict built by the code: insertion-ordered, keys hashable. *)
Definition pydict (V : Type) : Type := list (hkey * V).

Fixpoint dict_get {V} (k : hkey) (d : pydict V) : option V :=
  match d with
  | [] => None
  | (k', v) :: d' => if key_eqb k k' then Some v else dict_get k d'
  end.

Definition dict_mem {V} (k : hkey) (d : pydict V) : bool :=
  match dict_get k d with Some _ => true | None => false end.

(** [d[k] = v]: an existing key keeps its position, a new key goes last. *)
Fixpoint dict_set {V} (k : hkey) (v : V) (d : pydict V) : pydict V :=
  match d with
  | [] => [(k, v)]
  | (k', v') :: d' =>
      if key_eqb k k' then (k', v) :: d' else (k', v') :: dict_set k v d'
  end.

Definition dict_values {V} (d : pydict V) : list V := map snd d.
Definition dict_keys {V} (d : pydict V) : list hkey := map fst d.

(** [set(xs)] up to order: one representative per key. *)
Fixpoint py_set (xs : list hkey) : list hkey :=
  match xs with
  | [] => []
  | x :: xs' =>
      let s := py_set xs' in
      if existsb (key_eqb x) s then s else x :: s
  end.

(** ** enhanced_arbitrage_engine.py *)

Inductive MarketType : Type := MONEYLINE | SPREAD | TOTALS | CROSS_MARKET.

(** The inner dict of a best-odds selection:
    [{"price": .., "bookmaker": .., "point": ..}] ([point] for spreads). *)
Record odds_info : Type := {
  price : Q;
  bookmaker : value;
  point : option Q
}.

Module ArbitrageOpportunity.
Record t : Type := {
  game_id : value;
  home_team : value;
  away_team : value;
  sport_key : value;
  market_type : MarketType;
  profit_margin : Q;
  total_implied_probability : Q;
  best_odds : pydict odds_info;
  calculation_time : string;
  spread_value : option hkey;
  total_value : option hkey;
  correlation_risk : option Q;
  confidence_score : Q
}.
End ArbitrageOpportunity.

Module CrossMarketOpportunity.
Record t : Type := {
  game_id : string;
  market_combination : list string;
  profit_margin : Q;
  correlation_risk : Q;
  selected_outcomes : gmap string string;
  bookmaker_distribution : gmap string Q
}.
End CrossMarketOpportunity.

(** The fields set by [EnhancedArbitrageEngine.__init__] and
    [_initialize_statistical_models]. *)
Record EnhancedArbitrageEngine : Type := {
  min_profit_threshold : Q;
  max_stake_percentage : Q;
  enable_cross_market : bool;
  confidence_threshold : Q;
  bayesian_priors : list (string * Q);
  market_correlations : list ((string * string) * Q)
}.

Definition new_engine (min_profit max_stake : Q) (cross : bool)
    (confidence : Q) : EnhancedArbitrageEngine :=
  {| min_profit_threshold := min_profit;
     max_stake_percentage := max_stake;
     enable_cross_market := cross;
     confidence_threshold := confidence;
     bayesian_priors :=
       [("h2h_accuracy", 0.85%Q); ("spreads_accuracy", 0.78%Q);
        ("totals_accuracy", 0.72%Q)];
     market_correlations :=
       [(("h2h", "spreads"), 0.82%Q); (("h2h", "totals"), 0.45%Q);
        (("spreads", "totals"), 0.38%Q)] |}.

(** [EnhancedArbitrageEngine()] with the constructor's defaults. *)
Definition default_engine : EnhancedArbitrageEngine :=
  new_engine 1.0 0.95 true 0.7.

(** An entry of a spread or totals group:
    [{"outcome": outcome, "bookmaker": ..}]. *)
Record group_item : Type := {
  item_outcome : value;
  item_bookmaker : value
}.

Fixpoint assoc_pair {V} (k : string * string) (d : list ((string * string) * V))
  : option V :=
  match d with
  | [] => None
  | (k', v) :: d' =>
      if String.eqb (fst k) (fst k') && String.eqb (snd k) (snd k')
      then Some v else assoc_pair k d'
  end.

Section Engine.

(** What the engine takes from outside the repository: numpy's
    population standard deviation, the clock's ISO timestamp, [repr]
    of a non-string value and the [+.1f] rendering of a number. *)
Variable np_std : list Q -> Q.
Variable utc_now_iso : string.
Variable py_repr : value -> string.
Variable format_plus_1f : Q -> string.

Variable self : EnhancedArbitrageEngine.

Definition py_str (v : value) : string :=
  match v with
  | VStr s => s
  | _ => py_repr v
  end.

(** The body of the innermost loop of [_find_best_odds]. *)
Definition best_odds_step (book_name : value) (best_odds : pydict odds_info)
    (outcome : value) : result (pydict odds_info) :=
  let* team_name := py_get outcome "name" VNone in
  let* price_v := py_get outcome "price" (VNum 0) in
  if py_truthy team_name then
    let* p := py_num price_v in
    if Qltb 0 p then
      let* k := py_hash team_name in
      let better :=
        match dict_get k best_odds with
        | None => true
        | Some cur => Qltb (price cur) p
        end in
      if better
      then Ok (dict_set k {| price := p; bookmaker := book_name;
                             point := None |} best_odds)
      else Ok best_odds
    else Ok best_odds
  else Ok best_odds.

Definition _find_best_odds (game_data : value) (market_type : string)
  : result (pydict odds_info) :=
  let* bookmakers := py_get game_data "bookmakers" (VList []) in
  let* bookmakers := py_iter bookmakers in
  foldM (fun best_odds bookmaker =>
    let* markets := py_get bookmaker "markets" (VList []) in
    let* markets := py_iter markets in
    foldM (fun best_odds market =>
      let* key := py_get market "key" VNone in
      if py_eq_str key market_type then
        let* dflt := py_get bookmaker "key" (VStr "Unknown") in
        let* book_name := py_get bookmaker "title" dflt in
        let* outcomes := py_get market "outcomes" (VList []) in
        let* outcomes := py_iter outcomes in
        foldM (best_odds_step book_name) best_odds outcomes
      else Ok best_odds) best_odds markets) [] bookmakers.

(** [groups[k].append(item)], creating the list on first use. *)
Definition group_append (k : hkey) (it : group_item)
    (groups : pydict (list group_item)) : pydict (list group_item) :=
  let groups :=
    if dict_mem k groups then groups else dict_set k [] groups in
  match dict_get k groups with
  | Some l => dict_set k (l ++ [it]) groups
  | None => groups
  end.

(** The traversal shared by the two grouping functions; [point_key]
    turns the outcome's point into the group key. *)
Definition group_by_point (market_key : string)
    (point_key : value -> result hkey) (game_data : value)
  : result (pydict (list group_item)) :=
  let* bookmakers := py_get game_data "bookmakers" (VList []) in
  let* bookmakers := py_iter bookmakers in
  foldM (fun groups bookmaker =>
    let* markets := py_get bookmaker "markets" (VList []) in
    let* markets := py_iter markets in
    foldM (fun groups market =>
      let* key := py_get market "key" VNone in
      if py_eq_str key market_key then
        let* outcomes := py_get market "outcomes" (VList []) in
        let* outcomes := py_iter outcomes in
        foldM (fun groups outcome =>
          let* pt := py_get outcome "point" (VNum 0) in
          let* point_value := point_key pt in
          let* dflt := py_get bookmaker "key" VNone in
          let* book := py_get bookmaker "title" dflt in
          Ok (group_append point_value
                {| item_outcome := outcome; item_bookmaker := book |}
                groups)) groups outcomes
      else Ok groups) groups markets) [] bookmakers.

(** [point_value = abs(outcome.get("point", 0))]. *)
Definition _group_spreads_by_point_value (game_data : value)
  : result (pydict (list group_item)) :=
  group_by_point "spreads"
    (fun pt => let* a := py_abs pt in Ok (KNum a)) game_data.

(** [point_value = outcome.get("point", 0)], used as a dict key. *)
Definition _group_totals_by_point_value (game_data : value)
  : result (pydict (list group_item)) :=
  group_by_point "totals" py_hash game_data.

(** [f"{team_name} {point:+.1f}"]: [None], lists and dicts reject the
    format spec with a [TypeError], a str with a [ValueError]. *)
Definition spread_key (team_name pt : value) : result string :=
  match pt with
  | VNum q => Ok (py_str team_name ++ " " ++ format_plus_1f q)%string
  | VStr _ => Raise ValueError
  | _ => Raise TypeError
  end.

Definition _find_best_spread_odds (spread_data : list group_item)
  : result (pydict odds_info) :=
  foldM (fun best_odds it =>
    let outcome := item_outcome it in
    let bookmaker := item_bookmaker it in
    let* team_name := py_get outcome "name" VNone in
    let* price_v := py_get outcome "price" (VNum 0) in
    let* pt := py_get outcome "point" (VNum 0) in
    let* key := spread_key team_name pt in
    let* pt_q := py_num pt in
    let* p := py_num price_v in
    if Qltb 0 p then
      let better :=
        match dict_get (KStr key) best_odds with
        | None => true
        | Some cur => Qltb (price cur) p
        end in
      if better
      then Ok (dict_set (KStr key) {| price := p; bookmaker := bookmaker;
                                      point := Some pt_q |} best_odds)
      else Ok best_odds
    else Ok best_odds) [] spread_data.

Definition _find_best_totals_odds (totals_data : list group_item)
  : result (pydict odds_info) :=
  foldM (fun best_odds it =>
    let outcome := item_outcome it in
    let bookmaker := item_bookmaker it in
    let* outcome_name := py_get outcome "name" VNone in
    let* price_v := py_get outcome "price" (VNum 0) in
    let* p := py_num price_v in
    if Qltb 0 p then
      let* k := py_hash outcome_name in
      let better :=
        match dict_get k best_odds with
        | None => true
        | Some cur => Qltb (price cur) p
        end in
      if better
      then Ok (dict_set k {| price := p; bookmaker := bookmaker;
                             point := None |} best_odds)
      else Ok best_odds
    else Ok best_odds) [] totals_data.


(** [sum(1 / odds_info["price"] for odds_info in best_odds.values())]. *)
Definition sum_implied (best_odds : pydict odds_info) : result Q :=
  let* probs := mapM (fun info => py_div 1 (price info))
                     (dict_values best_odds) in
  Ok (py_sum probs).

Definition _calculate_confidence_score (best_odds : pydict odds_info)
    (market_type : string) (game_data : value) : result Q :=
  try_except
    (let base_confidence :=
       match assoc_str (market_type ++ "_accuracy")%string
                       (bayesian_priors self) with
       | Some x => x
       | None => 0.8%Q
       end in
     let* books := mapM (fun info => py_hash (bookmaker info))
                        (dict_values best_odds) in
     let num_bookmakers := length (py_set books) in
     let bookmaker_factor :=
       py_min 1.0 (0.5 + inject_Z (Z.of_nat num_bookmakers) * 0.1)%Q in
     let odds_values := map price (dict_values best_odds) in
     let odds_std :=
       if (1 <? length odds_values)%nat then np_std odds_values else 0%Q in
     let distribution_factor := py_min 1.0 (0.7 + odds_std * 0.1)%Q in
     let confidence_score :=
       (base_confidence * bookmaker_factor * distribution_factor)%Q in
     Ok (py_min 1.0 (py_max 0.0 confidence_score)))
    0.5%Q.

(** The [ArbitrageOpportunity(...)] constructor call of the three
    detectors; [game_data.get] is evaluated for each field. *)
Definition make_opportunity (game_data : value) (mt : MarketType)
    (profit_margin total_implied : Q) (best_odds : pydict odds_info)
    (spread_value total_value : option hkey)
    (confidence_score : Q) : result ArbitrageOpportunity.t :=
  let* gid := py_get game_data "id" (VStr "unknown") in
  let* home := py_get game_data "home_team" (VStr "Unknown") in
  let* away := py_get game_data "away_team" (VStr "Unknown") in
  let* sport := py_get game_data "sport_key" (VStr "unknown") in
  Ok {| ArbitrageOpportunity.game_id := gid;
        ArbitrageOpportunity.home_team := home;
        ArbitrageOpportunity.away_team := away;
        ArbitrageOpportunity.sport_key := sport;
        ArbitrageOpportunity.market_type := mt;
        ArbitrageOpportunity.profit_margin := profit_margin;
        ArbitrageOpportunity.total_implied_probability := total_implied;
        ArbitrageOpportunity.best_odds := best_odds;
        ArbitrageOpportunity.calculation_time := utc_now_iso;
        ArbitrageOpportunity.spread_value := spread_value;
        ArbitrageOpportunity.total_value := total_value;
        ArbitrageOpportunity.correlation_risk := None;
        ArbitrageOpportunity.confidence_score := confidence_score |}.

(** The part the three detectors share, from the implied-probability
    sum to the [append]: the opportunities list after looking at one
    best-odds selection of at least two outcomes. *)
Definition check_arbitrage (game_data : value) (mt : MarketType)
    (market_key : string) (best_odds : pydict odds_info)
    (spread_value total_value : option hkey)
    (opportunities : list ArbitrageOpportunity.t)
  : result (list ArbitrageOpportunity.t) :=
  let* total_implied := sum_implied best_odds in
  if Qltb total_implied 1.0 then
    let profit_margin := ((1 - total_implied) * 100)%Q in
    if Qleb (min_profit_threshold self) profit_margin then
      let* confidence_score :=
        _calculate_confidence_score best_odds market_key game_data in
      if Qleb (confidence_threshold self) confidence_score then
        let* opportunity :=
          make_opportunity game_data mt profit_margin total_implied
            best_odds spread_value total_value confidence_score in
        Ok (opportunities ++ [opportunity])
      else Ok opportunities
    else Ok opportunities
  else Ok opportunities.

Definition detect_moneyline_arbitrage_body (game_data : value)
  : result (list ArbitrageOpportunity.t) :=
  let opportunities := [] in
  let* best_odds := _find_best_odds game_data "h2h" in
  if (length best_odds <? 2)%nat then Ok opportunities
  else check_arbitrage game_data MONEYLINE "h2h" best_odds None None
         opportunities.

Definition detect_moneyline_arbitrage (game_data : value)
  : result (list ArbitrageOpportunity.t) :=
  try_except (detect_moneyline_arbitrage_body game_data) [].

Definition detect_spread_arbitrage_body (game_data : value)
  : result (list ArbitrageOpportunity.t) :=
  let* spread_groups := _group_spreads_by_point_value game_data in
  foldM (fun opportunities group =>
    let '(spread_value, spread_odds) := group in
    let* best_odds := _find_best_spread_odds spread_odds in
    if (length best_odds <? 2)%nat then Ok opportunities
    else check_arbitrage game_data SPREAD "spreads" best_odds
           (Some spread_value) None opportunities) [] spread_groups.

Definition detect_spread_arbitrage (game_data : value)
  : result (list ArbitrageOpportunity.t) :=
  try_except (detect_spread_arbitrage_body game_data) [].

Definition detect_totals_arbitrage_body (game_data : value)
  : result (list ArbitrageOpportunity.t) :=
  let* totals_groups := _group_totals_by_point_value game_data in
  foldM (fun opportunities group =>
    let '(total_value, total_odds) := group in
    let* best_odds := _find_best_totals_odds total_odds in
    if (length best_odds <? 2)%nat then Ok opportunities
    else check_arbitrage game_data TOTALS "totals" best_odds None
           (Some total_value) opportunities) [] totals_groups.

Definition detect_totals_arbitrage (game_data : value)
  : result (list ArbitrageOpportunity.t) :=
  try_except (detect_totals_arbitrage_body game_data) [].

(** [markets.add(market.get("key"))] over every bookmaker and market. *)
Definition _get_available_markets (game_data : value)
  : result (list hkey) :=
  let* bookmakers := py_get game_data "bookmakers" (VList []) in
  let* bookmakers := py_iter bookmakers in
  let* markets := foldM (fun markets bookmaker =>
    let* ms := py_get bookmaker "markets" (VList []) in
    let* ms := py_iter ms in
    foldM (fun markets market =>
      let* key := py_get market "key" VNone in
      let* k := py_hash key in
      Ok (if existsb (key_eqb k) markets then markets
          else markets ++ [k])) markets ms) [] bookmakers in
  Ok markets.

Definition _analyze_cross_market_combination (game_data : value)
    (market_combo : string * string)
  : result (list CrossMarketOpportunity.t) :=
  try_except
    (let opportunities : list CrossMarketOpportunity.t := [] in
     let correlation :=
       match assoc_pair market_combo (market_correlations self) with
       | Some c => c
       | None => 0.5%Q
       end in
     if Qltb 0.9 correlation then Ok opportunities
     else
       let* market1_odds := _find_best_odds game_data (fst market_combo) in
       let* market2_odds := _find_best_odds game_data (snd market_combo) in
       if match market1_odds with [] => true | _ => false end
          || match market2_odds with [] => true | _ => false end
       then Ok opportunities
       else Ok opportunities)
    [].

Definition market_combinations : list (string * string) :=
  [("h2h", "spreads"); ("h2h", "totals"); ("spreads", "totals")].

Definition detect_cross_market_arbitrage (game_data : value)
  : result (list CrossMarketOpportunity.t) :=
  if negb (enable_cross_market self) then Ok []
  else
    try_except
      (let* available_markets := _get_available_markets game_data in
       foldM (fun opportunities market_combo =>
         if existsb (key_eqb (KStr (fst market_combo))) available_markets
            && existsb (key_eqb (KStr (snd market_combo))) available_markets
         then
           let* cross_opportunities :=
             _analyze_cross_market_combination game_data market_combo in
           Ok (opportunities ++ cross_opportunities)
         else Ok opportunities) [] market_combinations)
      [].

(** [opportunity_data[k]] and [stakes[k]]: a missing key is a
    [KeyError]. *)
Definition dict_index {V} (k : hkey) (d : pydict V) : result V :=
  match dict_get k d with
  | Some v => Ok v
  | None => Raise KeyError
  end.

(** [next(iter(d.keys()))]. *)
Definition first_key {V} (d : pydict V) : result hkey :=
  match d with
  | [] => Raise StopIteration
  | (k, _) :: _ => Ok k
  end.

Definition calculate_optimal_stakes_body
    (opportunity_data : pydict odds_info) (bankroll : Q)
  : result (pydict Q) :=
  let* implied_probs :=
    foldM (fun acc kv =>
             let* ip := py_div 1 (price (snd kv)) in
             Ok (dict_set (fst kv) ip acc)) [] opportunity_data in
  let total_implied := py_sum (dict_values implied_probs) in
  let max_investment := (bankroll * max_stake_percentage self)%Q in
  let optimal_investment := (max_investment * total_implied)%Q in
  let* stakes :=
    foldM (fun stakes kv =>
             let* stake_percentage := py_div (snd kv) total_implied in
             Ok (dict_set (fst kv)
                   (optimal_investment * stake_percentage)%Q stakes))
          [] implied_probs in
  let total_investment := py_sum (dict_values stakes) in
  let* sample_outcome := first_key opportunity_data in
  let* sample_info := dict_index sample_outcome opportunity_data in
  let sample_odds := price sample_info in
  let* sample_stake := dict_index sample_outcome stakes in
  let guaranteed_return := (sample_stake * sample_odds)%Q in
  let guaranteed_profit := (guaranteed_return - total_investment)%Q in
  let* ratio := py_div guaranteed_profit total_investment in
  Ok (dict_set (KStr "profit_percentage") (ratio * 100)%Q
       (dict_set (KStr "guaranteed_profit") guaranteed_profit
         (dict_set (KStr "total_investment") total_investment stakes))).

Definition calculate_optimal_stakes (opportunity_data : pydict odds_info)
    (bankroll : Q) : result (pydict Q) :=
  try_except (calculate_optimal_stakes_body opportunity_data bankroll) [].

End Engine.

(** ** The quotes behind a best-odds selection

    The quotes of one market type that [_find_best_odds] ingests, in the
    order the three nested loops visit them: an outcome contributes a
    quote when its name is truthy and its price is a positive number. *)

Record quote : Type := {
  q_outcome : hkey;
  q_price : Q;
  q_bookmaker : value
}.

Definition outcome_quotes (book_name outcome : value) : result (list quote) :=
  let* team_name := py_get outcome "name" VNone in
  let* price_v := py_get outcome "price" (VNum 0) in
  if py_truthy team_name then
    let* p := py_num price_v in
    if Qltb 0 p then
      let* k := py_hash team_name in
      Ok [{| q_outcome := k; q_price := p; q_bookmaker := book_name |}]
    else Ok []
  else Ok [].

Definition market_quotes (market_type : string) (bookmaker market : value)
  : result (list quote) :=
  let* key := py_get market "key" VNone in
  if py_eq_str key market_type then
    let* dflt := py_get bookmaker "key" (VStr "Unknown") in
    let* book_name := py_get bookmaker "title" dflt in
    let* outcomes := py_get market "outcomes" (VList []) in
    let* outcomes := py_iter outcomes in
    let* qs := mapM (outcome_quotes book_name) outcomes in
    Ok (concat qs)
  else Ok [].

Definition bookmaker_quotes (market_type : string) (bookmaker : value)
  : result (list quote) :=
  let* markets := py_get bookmaker "markets" (VList []) in
  let* markets := py_iter markets in
  let* qs := mapM (market_quotes market_type bookmaker) markets in
  Ok (concat qs).

Definition ingested_quotes (game_data : value) (market_type : string)
  : result (list quote) :=
  let* bookmakers := py_get game_data "bookmakers" (VList []) in
  let* bookmakers := py_iter bookmakers in
  let* qs := mapM (bookmaker_quotes market_type) bookmakers in
  Ok (concat qs).

(** The update one quote makes to the selection: it enters when its
    outcome is new or its price is strictly higher than the one held. *)
Definition keep_best (best_odds : pydict odds_info) (q : quote)
  : pydict odds_info :=
  let better :=
    match dict_get (q_outcome q) best_odds with
    | None => true
    | Some cur => Qltb (price cur) (q_price q)
    end in
  if better
  then dict_set (q_outcome q)
         {| price := q_price q; bookmaker := q_bookmaker q; point := None |}
         best_odds
  else best_odds.

(** What the selection holds for a key after folding a list of quotes:
    nothing when no quote has the key, else the first quote of maximal
    price among those with the key. *)
Definition selects (qs : list quote) (k : hkey) (held : option odds_info)
  : Prop :=
  match held with
  | None => forall q, In q qs -> key_eqb k (q_outcome q) = false
  | Some info =>
      exists (i : nat) (q : quote),
        nth_error qs i = Some q /\
        key_eqb k (q_outcome q) = true /\
        price info = q_price q /\
        bookmaker info = q_bookmaker q /\
        (forall q', In q' qs -> key_eqb k (q_outcome q') = true ->
                    (q_price q' <= q_price q)%Q) /\
        (forall j q', (j < i)%nat -> nth_error qs j = Some q' ->
                      key_eqb k (q_outcome q') = true ->
                      (q_price q' < q_price q)%Q)
  end.

(** Every price held by a selection is positive. *)
Definition prices_positive (best : pydict odds_info) : Prop :=
  forall k info, In (k, info) best -> (0 < price info)%Q.

(** A dict holds each key once. *)
Fixpoint dict_wf {V} (d : pydict V) : Prop :=
  match d with
  | [] => True
  | (k, _) :: d' => dict_get k d' = None /\ dict_wf d'
  end.

(** The games of the test fixtures: one h2h market per bookmaker. *)
Definition h2h_outcome (name : string) (p : Q) : value :=
  VDict [("name", VStr name); ("price", VNum p)].

Definition h2h_bookmaker (key title : string) (outcomes : list value) : value :=
  VDict [("key", VStr key); ("title", VStr title);
         ("markets", VList [VDict [("key", VStr "h2h");
                                   ("outcomes", VList outcomes)]])].

Definition h2h_game (id : string) (bookmakers : list value) : value :=
  VDict [("id", VStr id); ("sport_key", VStr "basketball_wnba");
         ("home_team", VStr "Team A"); ("away_team", VStr "Team B");
         ("bookmakers", VList bookmakers)].

(** [arbitrage_opportunity_odds] of tests/conftest.py. *)
Definition arbitrage_game : value :=
  h2h_game "arbitrage_game"
    [h2h_bookmaker "bookmaker1" "Bookmaker 1"
       [h2h_outcome "Team A" 2.20; h2h_outcome "Team B" 1.50];
     h2h_bookmaker "bookmaker2" "Bookmaker 2"
       [h2h_outcome "Team A" 1.40; h2h_outcome "Team B" 3.00]].

(** The implied-probability total of a selection, [Σ 1/price]. *)
Definition implied_total (best_odds : pydict odds_info) : Q :=
  py_sum (map (fun info => 1 / price info)%Q (dict_values best_odds)).




(** A rational stand-in for [np.std], used to run the model: the
    population variance, and its square root rounded down to nine
    decimals. *)
Definition pop_variance (xs : list Q) : Q :=
  let n := inject_Z (Z.of_nat (length xs)) in
  let mean := (py_sum xs / n)%Q in
  (py_sum (map (fun x => (x - mean) * (x - mean))%Q xs) / n)%Q.

Definition Qsqrt_down (q : Q) : Q :=
  (Z.sqrt (Qnum q * 10 ^ 18 / Z.pos (Qden q)) # 10 ^ 9)%Q.

Definition std_q (xs : list Q) : Q :=
  match xs with
  | [] => 0%Q
  | _ => Qsqrt_down (pop_variance xs)
  end.

(** ** parallel_arbitrage_processor.py *)

(** What [datetime.now()] is read for: [now.hour] and [now.date()] (as a
    day number). *)
Record datetime : Type := {
  hour : Z;
  date : Z
}.

Record APIQuotaManager : Type := {
  daily_limit : Z;
  hourly_limit : Z;
  per_request_cost : Z;
  daily_usage : Z;
  hourly_usage : Z;
  current_hour : Z;
  current_day : Z
}.

(** [APIQuotaManager(daily_limit, hourly_limit, per_request_cost)]
    constructed at time [now]. *)
Definition new_quota (daily hourly per_request : Z) (now : datetime)
  : APIQuotaManager :=
  {| daily_limit := daily; hourly_limit := hourly;
     per_request_cost := per_request;
     daily_usage := 0; hourly_usage := 0;
     current_hour := hour now; current_day := date now |}.

(** [cost or self.per_request_cost]: [None] and [0] are both falsy. *)
Definition cost_or (cost : option Z) (dflt : Z) : Z :=
  match cost with
  | Some c => if (c =? 0)%Z then dflt else c
  | None => dflt
  end.

(** The "reset counters if new hour/day" block. *)
Definition reset_windows (now : datetime) (self : APIQuotaManager)
  : APIQuotaManager :=
  let self :=
    if negb (hour now =? current_hour self)%Z
    then {| daily_limit := daily_limit self;
            hourly_limit := hourly_limit self;
            per_request_cost := per_request_cost self;
            daily_usage := daily_usage self;
            hourly_usage := 0;
            current_hour := hour now;
            current_day := current_day self |}
    else self in
  if negb (date now =? current_day self)%Z
  then {| daily_limit := daily_limit self;
          hourly_limit := hourly_limit self;
          per_request_cost := per_request_cost self;
          daily_usage := 0;
          hourly_usage := hourly_usage self;
          current_hour := current_hour self;
          current_day := date now |}
  else self.

(** [consume_quota] mutates [self]; the manager after the call is
    returned next to the outcome, also when the call raises. *)
Definition consume_quota (cost : option Z) (now : datetime)
    (self : APIQuotaManager) : result unit * APIQuotaManager :=
  let cost := cost_or cost (per_request_cost self) in
  let self := reset_windows now self in
  if (daily_limit self <? daily_usage self + cost)%Z
  then (Raise DailyQuotaExceeded, self)
  else if (hourly_limit self <? hourly_usage self + cost)%Z
  then (Raise HourlyQuotaExceeded, self)
  else (Ok tt,
        {| daily_limit := daily_limit self;
           hourly_limit := hourly_limit self;
           per_request_cost := per_request_cost self;
           daily_usage := daily_usage self + cost;
           hourly_usage := hourly_usage self + cost;
           current_hour := current_hour self;
           current_day := current_day self |}).

Definition get_remaining_quota (self : APIQuotaManager) : Z :=
  (daily_limit self - daily_usage self)%Z.

(** A run of [consume_quota] calls, each with its cost and clock
    reading; a raising call is absorbed by the caller and the run goes
    on. *)
Fixpoint consume_all (calls : list (option Z * datetime))
    (self : APIQuotaManager) : APIQuotaManager :=
  match calls with
  | [] => self
  | (cost, now) :: calls' =>
      consume_all calls' (snd (consume_quota cost now self))
  end.

Record CircuitBreaker : Type := {
  failure_threshold : Z;
  recovery_timeout : Q;
  failure_counts : gmap string Z;
  last_failure_times : gmap string Q;
  open_circuits : gset string
}.

(** [CircuitBreaker(failure_threshold=5, recovery_timeout=60)]. *)
Definition new_breaker (threshold : Z) (timeout : Q) : CircuitBreaker :=
  {| failure_threshold := threshold; recovery_timeout := timeout;
     failure_counts := ∅; last_failure_times := ∅; open_circuits := ∅ |}.

(** [now] is the reading of [time.time()]. *)
Definition record_failure (service_name : string) (now : Q)
    (self : CircuitBreaker) : CircuitBreaker :=
  let count := (default 0%Z (failure_counts self !! service_name) + 1)%Z in
  {| failure_threshold := failure_threshold self;
     recovery_timeout := recovery_timeout self;
     failure_counts := <[service_name := count]> (failure_counts self);
     last_failure_times := <[service_name := now]> (last_failure_times self);
     open_circuits :=
       if (failure_threshold self <=? count)%Z
       then {[service_name]} ∪ open_circuits self
       else open_circuits self |}.

Definition record_success (service_name : string) (self : CircuitBreaker)
  : CircuitBreaker :=
  {| failure_threshold := failure_threshold self;
     recovery_timeout := recovery_timeout self;
     failure_counts := <[service_name := 0%Z]> (failure_counts self);
     last_failure_times := last_failure_times self;
     open_circuits := open_circuits self ∖ {[service_name]} |}.

(** [is_open] returns its answer and the breaker it leaves behind. *)
Definition is_open (service_name : string) (now : Q) (self : CircuitBreaker)
  : bool * CircuitBreaker :=
  if bool_decide (service_name ∈ open_circuits self) then
    let last_failure :=
      default 0%Q (last_failure_times self !! service_name) in
    if Qltb (recovery_timeout self) (now - last_failure) then
      (false,
       {| failure_threshold := failure_threshold self;
          recovery_timeout := recovery_timeout self;
          failure_counts := <[service_name := 0%Z]> (failure_counts self);
          last_failure_times := last_failure_times self;
          open_circuits := open_circuits self ∖ {[service_name]} |})
    else (true, self)
  else (false, self).

(** What [asyncio.wait_for] around [asyncio.gather] of the tasks finds of
    one task when it returns: the task's value, or a task still running
    at the deadline. *)
Inductive task_state (A : Type) : Type :=
  | Done (a : A)
  | Pending.
Arguments Done {A} a.
Arguments Pending {A}.

(** [gather] yields the list of all values once every task is done;
    [wait_for] raises [TimeoutError] when that has not happened by the
    deadline. *)
Definition wait_for_gather {A} (tasks : list (task_state A))
  : result (list A) :=
  mapM (fun t => match t with
                 | Done a => Ok a
                 | Pending => Raise TimeoutError
                 end) tasks.

Section FetchCycle.

(** [fetch_single_sport(sport)] as seen at the deadline.  The coroutine
    catches its own exceptions and returns [(sport_key, result)] with
    [result = None] for a failed source. *)
Variable fetch_single_sport : string -> task_state (string * option value).

(** The result dict and the [sports_processed] increments. *)
Definition fetch_multiple_sports_concurrent (sports_list : list string)
  : gmap string value * nat :=
  let results : gmap string value := ∅ in
  let tasks := map fetch_single_sport sports_list in
  match wait_for_gather tasks with
  | Ok completed_tasks =>
      fold_left (fun acc task =>
                   match snd task with
                   | Some r => (<[fst task := r]> (fst acc), S (snd acc))
                   | None => acc
                   end) completed_tasks (results, 0%nat)
  | Raise _ => (results, 0%nat)
  end.

End FetchCycle.

Section DetectGame.

(** The methods of [self.arbitrage_engine] that the processor calls. *)
Variable detect_moneyline detect_spread detect_totals
  : value -> result (list ArbitrageOpportunity.t).
Variable detect_cross : value -> result (list CrossMarketOpportunity.t).

(** [opportunities] is extended in place, so what was added before an
    exception stays. *)
Definition _detect_game_arbitrage (game_data : value)
  : list ArbitrageOpportunity.t :=
  let opportunities := [] in
  match detect_moneyline game_data with
  | Raise _ => opportunities
  | Ok ml_opportunities =>
      let opportunities := opportunities ++ ml_opportunities in
      match detect_spread game_data with
      | Raise _ => opportunities
      | Ok spread_opportunities =>
          let opportunities := opportunities ++ spread_opportunities in
          match detect_totals game_data with
          | Raise _ => opportunities
          | Ok totals_opportunities =>
              let opportunities := opportunities ++ totals_opportunities in
              match detect_cross game_data with
              | Raise _ => opportunities
              | Ok cross_opportunities => opportunities
              end
          end
      end
  end.

End DetectGame.

(** ** cross_market_analyzer.py *)

Module RiskAssessment.
Record t : Type := {
  overall_risk : Q;
  correlation_risk : Q;
  bookmaker_risk : Q;
  market_risk : Q;
  recommended_stake_percentage : Q;
  risk_factors : list string
}.
End RiskAssessment.

(** [max(xs)]: a [ValueError] on an empty sequence, else the first
    maximal element. *)
Definition py_max_list (xs : list Q) : result Q :=
  match xs with
  | [] => Raise ValueError
  | x :: xs' => Ok (fold_left py_max xs' x)
  end.

Definition assess_cross_market_risk_body (opportunity : CrossMarketOpportunity.t)
  : result RiskAssessment.t :=
  let risk_factors : list string := [] in
  let correlation_risk := CrossMarketOpportunity.correlation_risk opportunity in
  let risk_factors :=
    if Qltb 0.8 correlation_risk
    then risk_factors ++ ["High market correlation"]
    else if Qltb 0.6 correlation_risk
    then risk_factors ++ ["Moderate market correlation"]
    else risk_factors in
  let book_distribution :=
    CrossMarketOpportunity.bookmaker_distribution opportunity in
  let* br :=
    if (size book_distribution <? 2)%nat
    then Ok (0.5%Q, risk_factors ++ ["Single bookmaker exposure"])
    else
      let* max_exposure :=
        py_max_list (map snd (map_to_list book_distribution)) in
      if Qltb 0.8 max_exposure
      then Ok (0.4%Q, risk_factors ++ ["High bookmaker concentration"])
      else if Qltb 0.6 max_exposure
      then Ok (0.2%Q, risk_factors ++ ["Moderate bookmaker concentration"])
      else Ok (0.0%Q, risk_factors) in
  let bookmaker_risk := fst br in
  let risk_factors := snd br in
  let legs := length (CrossMarketOpportunity.market_combination opportunity) in
  let market_risk := (0.1 * inject_Z (Z.of_nat legs))%Q in
  let risk_factors :=
    if (2 <? legs)%nat
    then risk_factors ++ ["Multi-market complexity"]
    else risk_factors in
  let overall_risk :=
    (correlation_risk * 0.6 + bookmaker_risk * 0.3 + market_risk * 0.1)%Q in
  let recommended_stake :=
    if Qltb overall_risk 0.2 then 0.1%Q
    else if Qltb overall_risk 0.5 then 0.05%Q
    else 0.02%Q in
  Ok {| RiskAssessment.overall_risk := overall_risk;
        RiskAssessment.correlation_risk := correlation_risk;
        RiskAssessment.bookmaker_risk := bookmaker_risk;
        RiskAssessment.market_risk := market_risk;
        RiskAssessment.recommended_stake_percentage := recommended_stake;
        RiskAssessment.risk_factors := risk_factors |}.

(** The assessment returned from the [except] branch. *)
Definition risk_calculation_error : RiskAssessment.t :=
  {| RiskAssessment.overall_risk := 0.8;
     RiskAssessment.correlation_risk := 0.8;
     RiskAssessment.bookmaker_risk := 0.5;
     RiskAssessment.market_risk := 0.3;
     RiskAssessment.recommended_stake_percentage := 0.01;
     RiskAssessment.risk_factors := ["Risk calculation error"] |}.

Definition assess_cross_market_risk (opportunity : CrossMarketOpportunity.t)
  : result RiskAssessment.t :=
  try_except (assess_cross_market_risk_body opportunity)
             risk_calculation_error.

(** A manager whose counters are within their limits. *)
Definition within_limits (self : APIQuotaManager) : Prop :=
  (daily_usage self <= daily_limit self)%Z /\
  (hourly_usage self <= hourly_limit self)%Z.

(** A clock reading inside the manager's current hour and day. *)
Definition in_window (now : datetime) (self : APIQuotaManager) : Prop :=
  hour now = current_hour self /\ date now = current_day self.

(** [n] failures of a service in a row, all recorded at time [now]. *)
Fixpoint fail_times (n : nat) (service_name : string) (now : Q)
    (self : CircuitBreaker) : CircuitBreaker :=
  match n with
  | O => self
  | S n' => fail_times n' service_name now (record_failure service_name now self)
  end.

(** The mock of [test_error_handling_in_parallel_operations] as the
    coordinator sees it after its 30 s timeout: "failing_sport" has
    returned [None], "timeout_sport" sleeps for 60 s and is still
    running, every other sport has returned its games. *)
Definition mock_fetch_single_sport (sport_key : string)
  : task_state (string * option value) :=
  if String.eqb sport_key "timeout_sport" then Pending
  else if String.eqb sport_key "failing_sport" then Done (sport_key, None)
  else Done (sport_key,
             Some (VDict [("games",
                           VList [VDict [("id",
                                          VStr (sport_key ++ "_game"))]])])).



(** A game with one spread line and one totals line, quoted by two
    bookmakers with generous prices. *)
Definition line_outcome (name : string) (p pt : Q) : value :=
  VDict [("name", VStr name); ("price", VNum p); ("point", VNum pt)].

Definition lines_game : value :=
  VDict [("id", VStr "lines_game");
         ("bookmakers",
          VList [VDict [("key", VStr "book1"); ("title", VStr "Book 1");
                        ("markets",
                         VList [VDict [("key", VStr "spreads");
                                       ("outcomes",
                                        VList [line_outcome "Team A" 2.2 (-5.5);
                                               line_outcome "Team B" 1.7 5.5])];
                                VDict [("key", VStr "totals");
                                       ("outcomes",
                                        VList [line_outcome "Over" 2.3 165.5;
                                               line_outcome "Under" 1.6 165.5])]])];
                 VDict [("key", VStr "book2"); ("title", VStr "Book 2");
                        ("markets",
                         VList [VDict [("key", VStr "spreads");
                                       ("outcomes",
                                        VList [line_outcome "Team A" 1.7 (-5.5);
                                               line_outcome "Team B" 2.2 5.5])];
                                VDict [("key", VStr "totals");
                                       ("outcomes",
                                        VList [line_outcome "Over" 1.6 165.5;
                                               line_outcome "Under" 2.3 165.5])]])]])].








(** ** parallel_arbitrage_processor.py: metrics, rate limiter and the
       coordinator's coroutines *)

Module ProcessingMetrics.
Record t : Type := {
  start_time : Q;
  end_time : Q;
  sports_processed : Z;
  games_processed : Z;
  opportunities_found : Z;
  api_calls_made : Z;
  cache_hits : Z;
  cache_misses : Z;
  errors_encountered : Z
}.

Definition processing_time (self : t) : Q :=
  (end_time self - start_time self)%Q.

Definition games_per_second (self : t) : result Q :=
  if Qltb 0 (processing_time self)
  then py_div (inject_Z (games_processed self)) (processing_time self)
  else Ok 0%Q.

Definition cache_hit_rate (self : t) : result Q :=
  let total_requests := (cache_hits self + cache_misses self)%Z in
  if (0 <? total_requests)%Z
  then py_div (inject_Z (cache_hits self)) (inject_Z total_requests)
  else Ok 0%Q.

(** [self.metrics.games_processed += n] and its siblings. *)
Definition add_games_processed (n : Z) (self : t) : t :=
  {| start_time := start_time self; end_time := end_time self;
     sports_processed := sports_processed self;
     games_processed := games_processed self + n;
     opportunities_found := opportunities_found self;
     api_calls_made := api_calls_made self;
     cache_hits := cache_hits self; cache_misses := cache_misses self;
     errors_encountered := errors_encountered self |}.

Definition add_opportunities_found (n : Z) (self : t) : t :=
  {| start_time := start_time self; end_time := end_time self;
     sports_processed := sports_processed self;
     games_processed := games_processed self;
     opportunities_found := opportunities_found self + n;
     api_calls_made := api_calls_made self;
     cache_hits := cache_hits self; cache_misses := cache_misses self;
     errors_encountered := errors_encountered self |}.

Definition add_api_calls_made (n : Z) (self : t) : t :=
  {| start_time := start_time self; end_time := end_time self;
     sports_processed := sports_processed self;
     games_processed := games_processed self;
     opportunities_found := opportunities_found self;
     api_calls_made := api_calls_made self + n;
     cache_hits := cache_hits self; cache_misses := cache_misses self;
     errors_encountered := errors_encountered self |}.

Definition add_errors_encountered (n : Z) (self : t) : t :=
  {| start_time := start_time self; end_time := end_time self;
     sports_processed := sports_processed self;
     games_processed := games_processed self;
     opportunities_found := opportunities_found self;
     api_calls_made := api_calls_made self;
     cache_hits := cache_hits self; cache_misses := cache_misses self;
     errors_encountered := errors_encountered self + n |}.

(** The metrics [ParallelArbitrageProcessor.__init__] starts with. *)
Definition initial : t :=
  {| start_time := 0; end_time := 0; sports_processed := 0;
     games_processed := 0; opportunities_found := 0; api_calls_made := 0;
     cache_hits := 0; cache_misses := 0; errors_encountered := 0 |}.
End ProcessingMetrics.

(** The throttler of [RateLimitManager] only delays the entry into
    [acquire]; the state the method itself keeps is [request_times]. *)
Record RateLimitManager : Type := {
  requests_per_second : Q;
  burst_capacity : Z;
  request_times : list Q
}.

(** What [acquire] does after its bookkeeping: go on at once, sleep for
    [sleep_time], or fail on [request_times[0]]. *)
Inductive acquired : Type :=
  | Proceeds
  | Sleeps (sleep_time : Q)
  | IndexErrorRaised.

(** [acquire], entered at clock reading [current_time]. *)
Definition acquire (current_time : Q) (self : RateLimitManager)
  : acquired * RateLimitManager :=
  let times := request_times self ++ [current_time] in
  let cutoff_time := (current_time - 1.0)%Q in
  let times := List.filter (fun t => Qltb cutoff_time t) times in
  let self := {| requests_per_second := requests_per_second self;
                 burst_capacity := burst_capacity self;
                 request_times := times |} in
  if (burst_capacity self <? Z.of_nat (length times))%Z then
    match times with
    | [] => (IndexErrorRaised, self)
    | first :: _ =>
        let sleep_time := ((first + 1.0) - current_time)%Q in
        if Qltb 0 sleep_time then (Sleeps sleep_time, self)
        else (Proceeds, self)
    end
  else (Proceeds, self).

(** What [_get_system_load] reads from psutil. *)
Record system_load : Type := {
  cpu_percent : Q;
  memory_percent : Q;
  active_connections : Z
}.

Section Concurrency.

(** [int(n * f)] for an int [n] and a float [f]: the product is rounded
    to a float before it is truncated, so it is kept abstract; it raises
    [OverflowError] (here any exception) for an [n] beyond the floats. *)
Variable int_scale : Z -> Q -> result Z.

Definition calculate_optimal_concurrency_body (max_concurrent_requests : Z)
    (_get_system_load : result system_load) : result Z :=
  let* system_load := _get_system_load in
  let cpu_percent := cpu_percent system_load in
  let memory_percent := memory_percent system_load in
  let active_connections := active_connections system_load in
  let optimal_concurrency := max_concurrent_requests in
  let* optimal_concurrency :=
    if Qltb 80 cpu_percent then Ok (Z.max 1 (optimal_concurrency / 2))
    else if Qltb 60 cpu_percent then
      let* scaled := int_scale optimal_concurrency 0.7 in
      Ok (Z.max 2 scaled)
    else Ok optimal_concurrency in
  let optimal_concurrency :=
    if Qltb 85 memory_percent then Z.max 1 (optimal_concurrency / 2)
    else optimal_concurrency in
  if (20 <? active_connections)%Z then
    let* scaled := int_scale optimal_concurrency 0.8 in
    Ok (Z.max 2 scaled)
  else Ok optimal_concurrency.

Definition calculate_optimal_concurrency (max_concurrent_requests : Z)
    (_get_system_load : result system_load) : Z :=
  match calculate_optimal_concurrency_body max_concurrent_requests
          _get_system_load with
  | Ok optimal_concurrency => optimal_concurrency
  | Raise _ => Z.max 1 (max_concurrent_requests / 2)
  end.

End Concurrency.

(** [int(x)] on an exact product: truncation toward zero.  A stand-in
    for the float computation where a concrete one is needed. *)
Definition int_scale_exact (n : Z) (f : Q) : result Z :=
  Ok (Z.quot (Qnum (inject_Z n * f)) (Zpos (Qden (inject_Z n * f)))).

Section DetectConcurrent.

(** [await loop.run_in_executor(self.thread_pool,
    self._detect_game_arbitrage, game_data)]: the list the function
    returns, or the exception of the executor. *)
Variable run_in_executor : value -> result (list ArbitrageOpportunity.t).

(** The handler of [process_single_game] formats
    [game_data.get('id', 'unknown')] before it counts the error, so a
    game that is no dict makes the task itself fail. *)
Definition process_single_game (game_data : value)
    (metrics : ProcessingMetrics.t)
  : result (list ArbitrageOpportunity.t) * ProcessingMetrics.t :=
  match run_in_executor game_data with
  | Ok game_opportunities =>
      (Ok game_opportunities,
       ProcessingMetrics.add_games_processed 1 metrics)
  | Raise _ =>
      match py_get game_data "id" (VStr "unknown") with
      | Ok _ => (Ok [], ProcessingMetrics.add_errors_encountered 1 metrics)
      | Raise e => (Raise e, metrics)
      end
  end.

(** [gather] with [return_exceptions=True]: one result per game, in the
    order of the games.  The tasks only add to counters, so the order in
    which they run does not show in the metrics. *)
Fixpoint gather_games (games_data : list value)
    (metrics : ProcessingMetrics.t)
  : list (result (list ArbitrageOpportunity.t)) * ProcessingMetrics.t :=
  match games_data with
  | [] => ([], metrics)
  | game :: games =>
      let '(r, metrics) := process_single_game game metrics in
      let '(rs, metrics) := gather_games games metrics in
      (r :: rs, metrics)
  end.

Definition detect_arbitrage_concurrent (games_data : list value)
    (metrics : ProcessingMetrics.t)
  : list ArbitrageOpportunity.t * ProcessingMetrics.t :=
  let opportunities := [] in
  let '(results, metrics) := gather_games games_data metrics in
  fold_left (fun acc r =>
               match r with
               | Ok l =>
                   (fst acc ++ l,
                    ProcessingMetrics.add_opportunities_found
                      (Z.of_nat (length l)) (snd acc))
               | Raise _ => acc
               end) results (opportunities, metrics).

Definition process_games_chunk (games_chunk : list value)
    (metrics : ProcessingMetrics.t)
  : list ArbitrageOpportunity.t * ProcessingMetrics.t :=
  detect_arbitrage_concurrent games_chunk metrics.

End DetectConcurrent.

(** The parts of the processor that [fetch_single_sport] touches. *)
Record ParallelArbitrageProcessor : Type := {
  quota_manager : APIQuotaManager;
  circuit_breaker : CircuitBreaker;
  metrics : ProcessingMetrics.t
}.

Definition service_name_of (sport_key : string) : string :=
  String.append "odds_api_" sport_key.

Definition optional (v : value) : option value :=
  match v with
  | VNone => None
  | _ => Some v
  end.

Section FetchSingleSport.

(** [await self._fetch_sport_odds(sport_key)]: the mock returns a dict,
    a production fetch may raise. *)
Variable _fetch_sport_odds : string -> result value.

(** One run of the coroutine [fetch_single_sport] once the rate limiter
    has let it through.  [now] is the reading of [datetime.now()] in
    [consume_quota], [t] the reading of [time.time()] before the fetch
    and [t_after] the one after it.  Up to the fetch nothing is awaited
    that suspends, so the paths that end before it are atomic. *)
Definition fetch_single_sport (sport_key : string) (now : datetime)
    (t t_after : Q) (self : ParallelArbitrageProcessor)
  : (string * option value) * ParallelArbitrageProcessor :=
  let service := service_name_of sport_key in
  let '(consumed, quota) := consume_quota None now (quota_manager self) in
  match consumed with
  | Raise _ =>
      ((sport_key, None),
       {| quota_manager := quota;
          circuit_breaker := record_failure service t (circuit_breaker self);
          metrics :=
            ProcessingMetrics.add_errors_encountered 1 (metrics self) |})
  | Ok _ =>
      let '(open, breaker) := is_open service t (circuit_breaker self) in
      if open then
        ((sport_key, None),
         {| quota_manager := quota; circuit_breaker := breaker;
            metrics := metrics self |})
      else
        match _fetch_sport_odds sport_key with
        | Ok result =>
            ((sport_key, optional result),
             {| quota_manager := quota;
                circuit_breaker := record_success service breaker;
                metrics :=
                  ProcessingMetrics.add_api_calls_made 1 (metrics self) |})
        | Raise _ =>
            ((sport_key, None),
             {| quota_manager := quota;
                circuit_breaker := record_failure service t_after breaker;
                metrics :=
                  ProcessingMetrics.add_errors_encountered 1
                    (metrics self) |})
        end
  end.

(** [n] runs of [fetch_single_sport] for one sport, one after the other
    at the same clock readings. *)
Fixpoint fetch_repeatedly (n : nat) (sport_key : string) (now : datetime)
    (t t_after : Q) (self : ParallelArbitrageProcessor)
  : ParallelArbitrageProcessor :=
  match n with
  | O => self
  | S n' =>
      fetch_repeatedly n' sport_key now t t_after
        (snd (fetch_single_sport sport_key now t t_after self))
  end.

End FetchSingleSport.

(** What [detect_arbitrage_concurrent] keeps of a game, and the two
    counters a game can move: a game whose executor call returns counts
    as processed, a game whose call raises counts as an error when the
    handler can format its id. *)
Definition game_opportunities
    (run_in_executor : value -> result (list ArbitrageOpportunity.t))
    (game_data : value) : list ArbitrageOpportunity.t :=
  match run_in_executor game_data with
  | Ok l => l
  | Raise _ => []
  end.

Definition game_processed
    (run_in_executor : value -> result (list ArbitrageOpportunity.t))
    (game_data : value) : bool :=
  match run_in_executor game_data with
  | Ok _ => true
  | Raise _ => false
  end.

Definition game_error_counted
    (run_in_executor : value -> result (list ArbitrageOpportunity.t))
    (game_data : value) : bool :=
  match run_in_executor game_data, game_data with
  | Raise _, VDict _ => true
  | _, _ => false
  end.

(** The metrics after a batch of games, on top of [metrics]. *)
Definition metrics_after
    (run_in_executor : value -> result (list ArbitrageOpportunity.t))
    (games_data : list value) (metrics : ProcessingMetrics.t)
  : ProcessingMetrics.t :=
  ProcessingMetrics.add_opportunities_found
    (Z.of_nat (length (flat_map (game_opportunities run_in_executor)
                         games_data)))
    (ProcessingMetrics.add_errors_encountered
       (Z.of_nat (length (List.filter (game_error_counted run_in_executor)
                            games_data)))
       (ProcessingMetrics.add_games_processed
          (Z.of_nat (length (List.filter (game_processed run_in_executor)
                               games_data)))
          metrics)).

(** ** cross_market_analyzer.py: correlations, risk level and Kelly
       stakes *)

Record CorrelationMatrix : Type := {
  h2h_spread_correlation : Q;
  h2h_totals_correlation : Q;
  spread_totals_correlation : Q
}.

(** [==] on pairs of strs. *)
Definition pair_eqb (a b : string * string) : bool :=
  String.eqb (fst a) (fst b) && String.eqb (snd a) (snd b).

Definition get_correlation (self : CorrelationMatrix)
    (market1 market2 : string) : Q :=
  if pair_eqb (market1, market2) ("h2h", "spreads")
     || pair_eqb (market2, market1) ("h2h", "spreads")
  then h2h_spread_correlation self
  else if pair_eqb (market1, market2) ("h2h", "totals")
          || pair_eqb (market2, market1) ("h2h", "totals")
  then h2h_totals_correlation self
  else if pair_eqb (market1, market2) ("spreads", "totals")
          || pair_eqb (market2, market1) ("spreads", "totals")
  then spread_totals_correlation self
  else 0.0%Q.

Definition get_risk_level (self : RiskAssessment.t) : string :=
  if Qltb (RiskAssessment.overall_risk self) 0.3 then "low"
  else if Qltb (RiskAssessment.overall_risk self) 0.7 then "medium"
  else "high".

(** [v[k]]: a [KeyError] for a missing key, a [TypeError] for a value
    that cannot be subscripted by a str. *)
Definition py_getitem (v : value) (k : string) : result value :=
  match v with
  | VDict d =>
      match assoc_str k d with
      | Some x => Ok x
      | None => Raise KeyError
      end
  | _ => Raise TypeError
  end.

(** [s in v] for a str [s]: a substring test on a str, membership in a
    list, key membership in a dict. *)
Definition py_contains_str (s : string) (v : value) : result bool :=
  match v with
  | VStr t =>
      Ok (match String.index 0 s t with Some _ => true | None => false end)
  | VList l => Ok (existsb (fun x => py_eq_str x s) l)
  | VDict d => Ok (existsb (fun kv => String.eqb (fst kv) s) d)
  | VNone | VNum _ => Raise TypeError
  end.

(** [MarketCorrelationModel.__init__]: the base correlation of spreads
    and totals and the multipliers of the context adjustments. *)
Definition base_spread_totals : Q := 0.38.
Definition playoff_multiplier : Q := 1.15.
Definition rivalry_multiplier : Q := 1.10.
Definition weather_outdoor_multiplier : Q := 0.85.
Definition early_season_multiplier : Q := 0.90.

Section SpreadTotalsCorrelation.

(** [np.var] of a list of lines; it raises on entries that are no
    numbers. *)
Variable np_var : list value -> result Q.

(** The two lists of lines the loops fill. *)
Definition collect_lines (game_data : value)
  : result (list value * list value) :=
  let* bookmakers := py_get game_data "bookmakers" (VList []) in
  let* bookmakers := py_iter bookmakers in
  foldM (fun lines bookmaker =>
    let* markets := py_get bookmaker "markets" (VList []) in
    let* markets := py_iter markets in
    foldM (fun lines market =>
      let* key := py_get market "key" VNone in
      if py_eq_str key "spreads" then
        let* outcomes := py_get market "outcomes" (VList []) in
        let* outcomes := py_iter outcomes in
        foldM (fun lines outcome =>
          let* point := py_get outcome "point" (VNum 0) in
          let* a := py_abs point in
          Ok (fst lines ++ [VNum a], snd lines)) lines outcomes
      else
        let* key := py_get market "key" VNone in
        if py_eq_str key "totals" then
          let* outcomes := py_get market "outcomes" (VList []) in
          let* outcomes := py_iter outcomes in
          foldM (fun lines outcome =>
            let* point := py_get outcome "point" (VNum 0) in
            Ok (fst lines, snd lines ++ [point])) lines outcomes
        else Ok lines) lines markets) ([], []) bookmakers.

Definition calculate_spread_totals_correlation_body (game_data : value)
  : result Q :=
  let* lines := collect_lines game_data in
  let spread_lines := fst lines in
  let totals_lines := snd lines in
  if (length spread_lines <? 2)%nat || (length totals_lines <? 2)%nat
  then Ok base_spread_totals
  else
    let* spread_variance := np_var spread_lines in
    let* totals_variance := np_var totals_lines in
    let base_corr := base_spread_totals in
    let variance_factor :=
      py_max 0.5 (1.0 - (spread_variance + totals_variance) * 0.1) in
    Ok (base_corr * variance_factor)%Q.

Definition calculate_spread_totals_correlation (game_data : value) : Q :=
  match calculate_spread_totals_correlation_body game_data with
  | Ok r => r
  | Raise _ => base_spread_totals
  end.

End SpreadTotalsCorrelation.

(** [np.var] on exact numbers: the population variance. *)
Definition np_var_exact (l : list value) : result Q :=
  let* xs := mapM py_num l in
  Ok (pop_variance xs).

Definition adjust_correlation_for_context_body (base_correlation : Q)
    (context : value) : result Q :=
  let adjusted_correlation := base_correlation in
  let* game_type := py_get context "game_type" VNone in
  let adjusted_correlation :=
    if py_eq_str game_type "playoff"
    then (adjusted_correlation * playoff_multiplier)%Q
    else adjusted_correlation in
  let* teams_rivalry := py_get context "teams_rivalry" VNone in
  let adjusted_correlation :=
    if py_truthy teams_rivalry
    then (adjusted_correlation * rivalry_multiplier)%Q
    else adjusted_correlation in
  let* weather := py_get context "weather" VNone in
  let* outdoor :=
    if py_truthy weather then
      let* weather := py_getitem context "weather" in
      py_contains_str "outdoor" weather
    else Ok false in
  let adjusted_correlation :=
    if outdoor
    then (adjusted_correlation * weather_outdoor_multiplier)%Q
    else adjusted_correlation in
  let* time_of_season := py_get context "time_of_season" VNone in
  let adjusted_correlation :=
    if py_eq_str time_of_season "early"
    then (adjusted_correlation * early_season_multiplier)%Q
    else adjusted_correlation in
  Ok (py_max (-1.0) (py_min 1.0 adjusted_correlation)).

Definition adjust_correlation_for_context (base_correlation : Q)
    (context : value) : Q :=
  match adjust_correlation_for_context_body base_correlation context with
  | Ok adjusted_correlation => adjusted_correlation
  | Raise _ => base_correlation
  end.



(** * Properties *)

(** ** Comparisons, the error monad, loops *)

Lemma Qltb_lt (x y : Q) : Qltb x y = true <-> (x < y)%Q.
Proof.
  unfold Qltb. rewrite negb_true_iff, <- not_true_iff_false, Qle_bool_iff.
  split; [apply Qnot_le_lt | apply Qlt_not_le].
Qed.

Lemma Qltb_ge (x y : Q) : Qltb x y = false <-> (y <= x)%Q.
Proof.
  unfold Qltb. rewrite negb_false_iff. apply Qle_bool_iff.
Qed.

Lemma Qleb_le (x y : Q) : Qleb x y = true <-> (x <= y)%Q.
Proof. apply Qle_bool_iff. Qed.

Lemma Qleb_gt (x y : Q) : Qleb x y = false <-> (y < x)%Q.
Proof.
  unfold Qleb. rewrite <- not_true_iff_false, Qle_bool_iff.
  split; [apply Qnot_le_lt | apply Qlt_not_le].
Qed.

Lemma bind_Ok {A B} (c : result A) (k : A -> result B) (b : B) :
  bind c k = Ok b -> exists a, c = Ok a /\ k a = Ok b.
Proof. destruct c as [a|e]; simpl; [eauto | discriminate]. Qed.

Lemma bind_ret {A B} (a : A) (k : A -> result B) : bind (Ok a) k = k a.
Proof. reflexivity. Qed.

Lemma try_except_ret {A} (a dflt : A) : try_except (Ok a) dflt = Ok a.
Proof. reflexivity. Qed.

Lemma try_except_Ok {A} (body : result A) (dflt : A) :
  exists a, try_except body dflt = Ok a.
Proof. destruct body; simpl; eauto. Qed.

Lemma try_except_Raise {A} (body : result A) (dflt : A) (e : exn) :
  body = Raise e -> try_except body dflt = Ok dflt.
Proof. intros ->. reflexivity. Qed.

(** Inverts a hypothesis [let* x := c in k = Ok r]. *)
Ltac bind_inv H :=
  let a := fresh "a" in
  let Ha := fresh "Ha" in
  apply bind_Ok in H; destruct H as (a & Ha & H).

(** A loop invariant of [foldM]. *)
Lemma foldM_inv {A B} (P : A -> Prop) (f : A -> B -> result A) :
  (forall acc x acc', P acc -> f acc x = Ok acc' -> P acc') ->
  forall l acc r, P acc -> foldM f acc l = Ok r -> P r.
Proof.
  intros Hstep l. induction l as [|x l IH]; intros acc r HP H; simpl in H.
  - injection H as <-. exact HP.
  - bind_inv H. eauto.
Qed.

(** A loop whose body first computes a batch from the item and then
    folds the batch into the accumulator is the fold over all batches. *)
Lemma foldM_batches {A B C} (g : A -> C -> A) (F : B -> result (list C))
    (f : A -> B -> result A) :
  (forall acc x, f acc x = let* l := F x in Ok (fold_left g l acc)) ->
  forall xs acc,
    foldM f acc xs = let* ls := mapM F xs in Ok (fold_left g (concat ls) acc).
Proof.
  intros Hf xs. induction xs as [|x xs IH]; intros acc; simpl; [reflexivity|].
  rewrite Hf. destruct (F x) as [l|e]; simpl; [|reflexivity].
  rewrite IH. destruct (mapM F xs) as [ls|e]; simpl; [|reflexivity].
  now rewrite fold_left_app.
Qed.

(** ** Keys and dicts *)


Lemma key_eqb_sym (a b : hkey) : key_eqb a b = key_eqb b a.
Proof.
  destruct a, b; simpl; try reflexivity.
  - apply eq_true_iff_eq. rewrite !Qeq_bool_iff. split; intros H; now symmetry.
  - apply String.eqb_sym.
Qed.

Lemma key_eqb_trans (a b c : hkey) :
  key_eqb a b = true -> key_eqb b c = true -> key_eqb a c = true.
Proof.
  destruct a, b, c; simpl; try discriminate; try reflexivity.
  - rewrite !Qeq_bool_iff. intros H1 H2. now rewrite H1.
  - rewrite !String.eqb_eq. congruence.
Qed.

(** Equal keys look up alike. *)
Lemma key_eqb_congr (a b c : hkey) :
  key_eqb a b = true -> key_eqb a c = key_eqb b c.
Proof.
  intros Hab. destruct (key_eqb b c) eqn:Hbc.
  - eapply key_eqb_trans; eauto.
  - destruct (key_eqb a c) eqn:Hac; [|reflexivity].
    rewrite key_eqb_sym in Hab.
    now rewrite (key_eqb_trans _ _ _ Hab Hac) in Hbc.
Qed.

Lemma dict_get_set {V} (k k' : hkey) (v : V) (d : pydict V) :
  dict_get k (dict_set k' v d)
  = if key_eqb k k' then Some v else dict_get k d.
Proof.
  induction d as [|[k0 v0] d IH]; simpl.
  - reflexivity.
  - destruct (key_eqb k' k0) eqn:E0; simpl.
    + destruct (key_eqb k k') eqn:E.
      * now rewrite (key_eqb_trans _ _ _ E E0).
      * destruct (key_eqb k k0) eqn:E1; [|reflexivity].
        rewrite key_eqb_sym in E0.
        now rewrite (key_eqb_trans _ _ _ E1 E0) in E.
    + destruct (key_eqb k k0) eqn:E1.
      * destruct (key_eqb k k') eqn:E; [|reflexivity].
        rewrite key_eqb_sym in E.
        now rewrite (key_eqb_trans _ _ _ E E1) in E0.
      * exact IH.
Qed.


(** Every value of [dict_set k v d] is [v] or a value of [d]. *)
Lemma dict_set_In {V} (k k0 : hkey) (v v0 : V) (d : pydict V) :
  In (k0, v0) (dict_set k v d) -> v0 = v \/ In (k0, v0) d.
Proof.
  induction d as [|[k1 v1] d IH]; simpl.
  - intros [[= <- <-]|[]]. now left.
  - destruct (key_eqb k k1); simpl.
    + intros [[= <- <-]|H]; [now left | right; now right].
    + intros [H|H]; [right; now left|].
      destruct (IH H); [now left | right; now right].
Qed.

(** ** Best odds: the selection is the fold of [keep_best] over the
       ingested quotes *)

Lemma best_odds_step_quotes (book_name : value) (best : pydict odds_info)
    (outcome : value) :
  best_odds_step book_name best outcome
  = let* qs := outcome_quotes book_name outcome in
    Ok (fold_left keep_best qs best).
Proof.
  unfold best_odds_step, outcome_quotes.
  destruct (py_get outcome "name" VNone) as [team_name|e]; simpl; [|reflexivity].
  destruct (py_get outcome "price" (VNum 0)) as [price_v|e]; simpl;
    [|reflexivity].
  destruct (py_truthy team_name); [|reflexivity].
  destruct (py_num price_v) as [p|e]; simpl; [|reflexivity].
  destruct (Qltb 0 p); [|reflexivity].
  destruct (py_hash team_name) as [k|e]; simpl; [|reflexivity].
  unfold keep_best. simpl.
  destruct (match dict_get k best with
            | Some cur => Qltb (price cur) p
            | None => true
            end); reflexivity.
Qed.

Lemma market_step_quotes (mt : string) (bookmaker : value)
    (best : pydict odds_info) (market : value) :
  (let* key := py_get market "key" VNone in
   if py_eq_str key mt then
     let* dflt := py_get bookmaker "key" (VStr "Unknown") in
     let* book_name := py_get bookmaker "title" dflt in
     let* outcomes := py_get market "outcomes" (VList []) in
     let* outcomes := py_iter outcomes in
     foldM (best_odds_step book_name) best outcomes
   else Ok best)
  = let* qs := market_quotes mt bookmaker market in
    Ok (fold_left keep_best qs best).
Proof.
  unfold market_quotes.
  destruct (py_get market "key" VNone) as [key|e]; simpl; [|reflexivity].
  destruct (py_eq_str key mt); [|reflexivity].
  destruct (py_get bookmaker "key" (VStr "Unknown")) as [dflt|e]; simpl;
    [|reflexivity].
  destruct (py_get bookmaker "title" dflt) as [book_name|e]; simpl;
    [|reflexivity].
  destruct (py_get market "outcomes" (VList [])) as [outcomes|e]; simpl;
    [|reflexivity].
  destruct (py_iter outcomes) as [os|e]; simpl; [|reflexivity].
  rewrite (foldM_batches keep_best (outcome_quotes book_name))
    by (intros; apply best_odds_step_quotes).
  destruct (mapM (outcome_quotes book_name) os); reflexivity.
Qed.

Lemma bookmaker_step_quotes (mt : string) (best : pydict odds_info)
    (bookmaker : value) :
  (let* markets := py_get bookmaker "markets" (VList []) in
   let* markets := py_iter markets in
   foldM (fun best_odds market =>
     let* key := py_get market "key" VNone in
     if py_eq_str key mt then
       let* dflt := py_get bookmaker "key" (VStr "Unknown") in
       let* book_name := py_get bookmaker "title" dflt in
       let* outcomes := py_get market "outcomes" (VList []) in
       let* outcomes := py_iter outcomes in
       foldM (best_odds_step book_name) best_odds outcomes
     else Ok best_odds) best markets)
  = let* qs := bookmaker_quotes mt bookmaker in
    Ok (fold_left keep_best qs best).
Proof.
  unfold bookmaker_quotes.
  destruct (py_get bookmaker "markets" (VList [])) as [markets|e]; simpl;
    [|reflexivity].
  destruct (py_iter markets) as [ms|e]; simpl; [|reflexivity].
  rewrite (foldM_batches keep_best (market_quotes mt bookmaker))
    by (intros; apply market_step_quotes).
  destruct (mapM (market_quotes mt bookmaker) ms); reflexivity.
Qed.

(** [_find_best_odds] refines "fold [keep_best] over the ingested
    quotes", and raises exactly when collecting the quotes raises. *)
Lemma find_best_odds_quotes (game_data : value) (mt : string) :
  _find_best_odds game_data mt
  = let* qs := ingested_quotes game_data mt in
    Ok (fold_left keep_best qs []).
Proof.
  unfold _find_best_odds, ingested_quotes.
  destruct (py_get game_data "bookmakers" (VList [])) as [bs|e]; simpl;
    [|reflexivity].
  destruct (py_iter bs) as [bl|e]; simpl; [|reflexivity].
  rewrite (foldM_batches keep_best (bookmaker_quotes mt))
    by (intros; apply bookmaker_step_quotes).
  destruct (mapM (bookmaker_quotes mt) bl); reflexivity.
Qed.

Lemma keep_best_selects (qs : list quote) (k : hkey) :
  selects qs k (dict_get k (fold_left keep_best qs [])).
Proof.
  induction qs as [|q qs IH] using rev_ind.
  - simpl. intros q [].
  - rewrite fold_left_app. simpl.
    set (best := fold_left keep_best qs []) in *.
    unfold keep_best.
    destruct (key_eqb k (q_outcome q)) eqn:Hk.
    + (* the new quote is for [k] *)
      assert (Hget : dict_get (q_outcome q) best = dict_get k best).
      { clear -Hk. induction best as [|[k0 v0] d IHd]; simpl; [reflexivity|].
        rewrite <- (key_eqb_congr _ _ k0 Hk).
        destruct (key_eqb k k0); [reflexivity | exact IHd]. }
      rewrite Hget.
      destruct (dict_get k best) as [cur|] eqn:Hcur.
      * destruct IH as (i & q0 & Hi & Hq0 & Hp & Hb & Hmax & Hfirst).
        destruct (Qltb (price cur) (q_price q)) eqn:Hlt.
        -- (* strictly better: the new quote is held *)
           rewrite dict_get_set, Hk. simpl.
           apply Qltb_lt in Hlt. rewrite Hp in Hlt.
           exists (length qs), q. repeat split; try reflexivity.
           ++ rewrite nth_error_app2 by lia.
              now replace (length qs - length qs)%nat with 0%nat by lia.
           ++ exact Hk.
           ++ intros q' Hin Hq'. apply in_app_or in Hin as [Hin|[<-|[]]].
              ** apply Qle_trans with (q_price q0); [eauto | now apply Qlt_le_weak].
              ** apply Qle_refl.
           ++ intros j q' Hj Hnth Hq'.
              rewrite nth_error_app1 in Hnth by exact Hj.
              apply Qle_lt_trans with (q_price q0); [|exact Hlt].
              apply Hmax; [|exact Hq']. eapply nth_error_In; eauto.
        -- (* not better: the held quote stays *)
           rewrite Hcur. apply Qltb_ge in Hlt. rewrite Hp in Hlt.
           exists i, q0. repeat split; try assumption.
           ++ rewrite nth_error_app1; [exact Hi|].
              apply nth_error_Some. congruence.
           ++ intros q' Hin Hq'. apply in_app_or in Hin as [Hin|[<-|[]]];
                [eauto | exact Hlt].
           ++ intros j q' Hj Hnth Hq'.
              assert (i < length qs)%nat by (apply nth_error_Some; congruence).
              rewrite nth_error_app1 in Hnth by lia. eauto.
      * (* first quote for [k] *)
        rewrite dict_get_set, Hk. simpl in IH |- *.
        exists (length qs), q. repeat split; try reflexivity.
        -- rewrite nth_error_app2 by lia.
           now replace (length qs - length qs)%nat with 0%nat by lia.
        -- exact Hk.
        -- intros q' Hin Hq'. apply in_app_or in Hin as [Hin|[<-|[]]].
           ++ rewrite (IH q' Hin) in Hq'. discriminate.
           ++ apply Qle_refl.
        -- intros j q' Hj Hnth Hq'.
           rewrite nth_error_app1 in Hnth by exact Hj.
           apply nth_error_In in Hnth. rewrite (IH q' Hnth) in Hq'.
           discriminate.
    + (* the new quote is for another key *)
      assert (Hsame :
        dict_get k (if match dict_get (q_outcome q) best with
                       | Some cur => Qltb (price cur) (q_price q)
                       | None => true
                       end
                    then dict_set (q_outcome q)
                           {| price := q_price q; bookmaker := q_bookmaker q;
                              point := None |} best
                    else best) = dict_get k best).
      { destruct (match dict_get (q_outcome q) best with
                  | Some cur => Qltb (price cur) (q_price q)
                  | None => true
                  end); [|reflexivity].
        now rewrite dict_get_set, Hk. }
      rewrite Hsame.
      destruct (dict_get k best) as [cur|]; simpl in IH |- *.
      * destruct IH as (i & q0 & Hi & Hq0 & Hp & Hb & Hmax & Hfirst).
        assert (i < length qs)%nat by (apply nth_error_Some; congruence).
        exists i, q0. repeat split; try assumption.
        -- now rewrite nth_error_app1.
        -- intros q' Hin Hq'. apply in_app_or in Hin as [Hin|[<-|[]]];
             [eauto | congruence].
        -- intros j q' Hj Hnth Hq'.
           rewrite nth_error_app1 in Hnth by lia. eauto.
      * intros q' Hin. apply in_app_or in Hin as [Hin|[<-|[]]];
          [eauto | exact Hk].
Qed.

Lemma dict_set_wf {V} (k : hkey) (v : V) (d : pydict V) :
  dict_wf d -> dict_wf (dict_set k v d).
Proof.
  induction d as [|[k1 v1] d IH]; simpl.
  - auto.
  - intros [Hfresh Hwf]. destruct (key_eqb k k1) eqn:E; simpl.
    + auto.
    + split; [|auto]. rewrite dict_get_set, key_eqb_sym, E. exact Hfresh.
Qed.

Lemma keep_best_wf (qs : list quote) (best : pydict odds_info) :
  dict_wf best -> dict_wf (fold_left keep_best qs best).
Proof.
  revert best. induction qs as [|q qs IH]; intros best Hwf; simpl; [exact Hwf|].
  apply IH. unfold keep_best.
  destruct (match dict_get (q_outcome q) best with
            | Some cur => Qltb (price cur) (q_price q)
            | None => true
            end); [now apply dict_set_wf | exact Hwf].
Qed.

(** C7.  Whenever the traversal of the game data yields the quotes [qs]
    of the market type, [_find_best_odds] returns a selection that holds
    each outcome once and maps it to the quote of highest price among the
    quotes for that outcome over all bookmakers, the first one seen when
    the highest price is tied; an outcome without a quote is absent. *)
Theorem find_best_odds_first_highest (game_data : value) (mt : string)
    (qs : list quote) :
  ingested_quotes game_data mt = Ok qs ->
  exists best,
    _find_best_odds game_data mt = Ok best /\
    dict_wf best /\
    forall k, selects qs k (dict_get k best).
Proof.
  intros Hqs. rewrite find_best_odds_quotes, Hqs. simpl.
  eexists. split; [reflexivity|]. split.
  - now apply keep_best_wf.
  - intros k. apply keep_best_selects.
Qed.

Lemma find_best_odds_first_highest_witness :
  exists best,
    _find_best_odds arbitrage_game "h2h" = Ok best /\
    dict_wf best /\
    forall k,
      selects
        [ {| q_outcome := KStr "Team A"; q_price := 2.20;
             q_bookmaker := VStr "Bookmaker 1" |};
          {| q_outcome := KStr "Team B"; q_price := 1.50;
             q_bookmaker := VStr "Bookmaker 1" |};
          {| q_outcome := KStr "Team A"; q_price := 1.40;
             q_bookmaker := VStr "Bookmaker 2" |};
          {| q_outcome := KStr "Team B"; q_price := 3.00;
             q_bookmaker := VStr "Bookmaker 2" |} ]
        k (dict_get k best).
Proof.
  apply (find_best_odds_first_highest arbitrage_game "h2h").
  reflexivity.
Defined.

(** The selection exists exactly when the traversal does not raise. *)
Lemma find_best_odds_raises (game_data : value) (mt : string) (e : exn) :
  _find_best_odds game_data mt = Raise e <->
  ingested_quotes game_data mt = Raise e.
Proof.
  rewrite find_best_odds_quotes.
  destruct (ingested_quotes game_data mt); simpl; split; congruence.
Qed.

(** A tie keeps the first quote seen. *)
Example find_best_odds_tie :
  _find_best_odds
    (h2h_game "tie"
       [h2h_bookmaker "b1" "Book 1" [h2h_outcome "Team A" 2.5];
        h2h_bookmaker "b2" "Book 2" [h2h_outcome "Team A" 2.50]]) "h2h"
  = Ok [(KStr "Team A",
         {| price := 2.5; bookmaker := VStr "Book 1"; point := None |})].
Proof. reflexivity. Qed.

(** ** Prices in a selection *)

Lemma quotes_positive_outcome (book_name outcome : value) (qs : list quote) :
  outcome_quotes book_name outcome = Ok qs ->
  Forall (fun q => 0 < q_price q)%Q qs.
Proof.
  unfold outcome_quotes. intros H.
  bind_inv H. bind_inv H.
  destruct (py_truthy a); [|injection H as <-; constructor].
  bind_inv H.
  destruct (Qltb 0 a1) eqn:Hp; [|injection H as <-; constructor].
  bind_inv H. injection H as <-.
  constructor; [|constructor]. simpl. now apply Qltb_lt.
Qed.

Lemma keep_best_positive (qs : list quote) (best : pydict odds_info) :
  Forall (fun q => 0 < q_price q)%Q qs ->
  prices_positive best -> prices_positive (fold_left keep_best qs best).
Proof.
  intros Hqs. revert best.
  induction Hqs as [|q qs Hq _ IH]; intros best Hbest; simpl; [exact Hbest|].
  apply IH. unfold keep_best.
  destruct (match dict_get (q_outcome q) best with
            | Some cur => Qltb (price cur) (q_price q)
            | None => true
            end); [|exact Hbest].
  intros k info Hin. apply dict_set_In in Hin as [->|Hin]; [exact Hq | eauto].
Qed.

Lemma best_odds_step_positive (book_name : value) (best best' : pydict odds_info)
    (outcome : value) :
  prices_positive best ->
  best_odds_step book_name best outcome = Ok best' ->
  prices_positive best'.
Proof.
  intros Hbest H. rewrite best_odds_step_quotes in H. bind_inv H.
  injection H as <-.
  apply keep_best_positive; [|exact Hbest].
  eapply quotes_positive_outcome; eauto.
Qed.

Lemma find_best_odds_positive (game_data : value) (mt : string)
    (best : pydict odds_info) :
  _find_best_odds game_data mt = Ok best -> prices_positive best.
Proof.
  unfold _find_best_odds. intros H. bind_inv H. bind_inv H.
  revert H. apply foldM_inv; [|intros k info []].
  intros acc bookmaker acc' Hacc H. bind_inv H. bind_inv H.
  revert H. apply foldM_inv; [|exact Hacc].
  clear acc acc' Hacc. intros acc market acc' Hacc H. bind_inv H.
  destruct (py_eq_str a3 mt); [|now injection H as <-].
  bind_inv H. bind_inv H. bind_inv H. bind_inv H.
  revert H. apply foldM_inv; [|exact Hacc].
  intros ? ? ? ? ?. eapply best_odds_step_positive; eauto.
Qed.

(** A price that is missing or not positive leaves the selection as it
    was. *)
Lemma best_odds_step_discards (book_name : value) (best : pydict odds_info)
    (outcome : value) (p : Q) :
  py_get outcome "price" (VNum 0) = Ok (VNum p) -> (p <= 0)%Q ->
  best_odds_step book_name best outcome = Ok best.
Proof.
  intros Hget Hp. unfold best_odds_step.
  destruct outcome; try discriminate. simpl in Hget |- *.
  injection Hget as Hget. rewrite Hget.
  destruct (py_truthy _); [|reflexivity]. simpl.
  apply Qltb_ge in Hp. now rewrite Hp.
Qed.



(** C6, as amended.  Every price held by a best-odds selection is
    positive (the guard is [price > 0], not [price > 1.0]), and an outcome
    whose price is missing or not positive leaves the selection
    unchanged. *)
Theorem best_odds_prices_positive (game_data : value) (mt : string)
    (best : pydict odds_info) :
  _find_best_odds game_data mt = Ok best ->
  (forall k info, In (k, info) best -> (0 < price info)%Q) /\
  (forall book_name acc outcome p,
      py_get outcome "price" (VNum 0) = Ok (VNum p) -> (p <= 0)%Q ->
      best_odds_step book_name acc outcome = Ok acc).
Proof.
  intros H. split.
  - exact (find_best_odds_positive _ _ _ H).
  - intros. eapply best_odds_step_discards; eauto.
Qed.

Lemma best_odds_prices_positive_witness :
  (forall k info,
      In (k, info)
         [(KStr "Team A",
           {| price := 2.20; bookmaker := VStr "Bookmaker 1"; point := None |});
          (KStr "Team B",
           {| price := 3.00; bookmaker := VStr "Bookmaker 2"; point := None |})] ->
      (0 < price info)%Q) /\
  (forall book_name acc outcome p,
      py_get outcome "price" (VNum 0) = Ok (VNum p) -> (p <= 0)%Q ->
      best_odds_step book_name acc outcome = Ok acc).
Proof.
  apply (best_odds_prices_positive arbitrage_game "h2h").
  reflexivity.
Defined.

(** A price of 0.5 passes the [price > 0] guard and is held by the
    selection, although it is not above 1.0. *)
Lemma best_odds_price_below_one :
  exists best info,
    _find_best_odds
      (h2h_game "g" [h2h_bookmaker "b1" "Book 1" [h2h_outcome "Team A" 0.5]])
      "h2h" = Ok best /\
    In (KStr "Team A", info) best /\
    ~ (1 < price info)%Q.
Proof.
  eexists. eexists. split; [reflexivity|]. split; [left; reflexivity|].
  simpl. intros H. vm_compute in H. discriminate.
Qed.

(** ** Moneyline detection *)

Lemma mapM_pure {A B} (f : A -> result B) (g : A -> B) (l : list A) :
  (forall x, In x l -> f x = Ok (g x)) -> mapM f l = Ok (map g l).
Proof.
  induction l as [|x l IH]; intros H; simpl; [reflexivity|].
  rewrite (H x) by now left. simpl.
  rewrite IH by (intros; apply H; now right). reflexivity.
Qed.

Lemma py_div_ok (a b : Q) : ~ (b == 0)%Q -> py_div a b = Ok (a / b)%Q.
Proof.
  intros Hb. unfold py_div.
  destruct (Qeq_bool b 0) eqn:E; [|reflexivity].
  apply Qeq_bool_iff in E. contradiction.
Qed.

Lemma py_div_zero (a b : Q) : (b == 0)%Q -> py_div a b = Raise ZeroDivisionError.
Proof.
  intros Hb. unfold py_div. apply Qeq_bool_iff in Hb. now rewrite Hb.
Qed.

Lemma sum_implied_ok (best : pydict odds_info) :
  prices_positive best -> sum_implied best = Ok (implied_total best).
Proof.
  intros Hpos. unfold sum_implied, implied_total.
  rewrite (mapM_pure _ (fun info => 1 / price info)%Q); [reflexivity|].
  intros info Hin. apply py_div_ok.
  unfold dict_values in Hin. apply in_map_iff in Hin as ([k i] & <- & Hin).
  apply Hpos in Hin. simpl. intros E. rewrite E in Hin.
  exact (Qlt_irrefl _ Hin).
Qed.

Lemma find_best_odds_dict (game_data : value) (mt : string)
    (best : pydict odds_info) :
  _find_best_odds game_data mt = Ok best -> exists d, game_data = VDict d.
Proof.
  unfold _find_best_odds. intros H. bind_inv H.
  destruct game_data; try discriminate. eauto.
Qed.

Section Detection.

Variable np_std : list Q -> Q.
Variable utc_now_iso : string.
Variable self : EnhancedArbitrageEngine.

Lemma confidence_score_ok (best : pydict odds_info) (market_key : string)
    (game_data : value) :
  exists conf,
    _calculate_confidence_score np_std self best market_key game_data
    = Ok conf.
Proof. unfold _calculate_confidence_score. apply try_except_Ok. Qed.

(** What [check_arbitrage] does with a selection of positive prices:
    it appends one opportunity when the total is below 1 and both gates
    pass, and nothing otherwise. *)
Lemma check_arbitrage_gates (d : list (string * value)) (mt : MarketType)
    (market_key : string) (best : pydict odds_info)
    (sv tv : option hkey) (opps : list ArbitrageOpportunity.t) :
  prices_positive best ->
  let p := implied_total best in
  let margin := ((1 - p) * 100)%Q in
  exists conf,
    _calculate_confidence_score np_std self best market_key (VDict d)
      = Ok conf /\
    ((p < 1 /\ min_profit_threshold self <= margin /\
      confidence_threshold self <= conf)%Q ->
     exists o,
       check_arbitrage np_std utc_now_iso self (VDict d) mt market_key best
         sv tv opps = Ok (opps ++ [o]) /\
       ArbitrageOpportunity.market_type o = mt /\
       ArbitrageOpportunity.profit_margin o = margin /\
       ArbitrageOpportunity.total_implied_probability o = p /\
       ArbitrageOpportunity.best_odds o = best /\
       ArbitrageOpportunity.confidence_score o = conf) /\
    (~ (p < 1 /\ min_profit_threshold self <= margin /\
        confidence_threshold self <= conf)%Q ->
     check_arbitrage np_std utc_now_iso self (VDict d) mt market_key best
       sv tv opps = Ok opps).
Proof.
  intros Hpos p margin.
  destruct (confidence_score_ok best market_key (VDict d)) as [conf Hconf].
  exists conf. split; [exact Hconf|].
  unfold check_arbitrage. rewrite (sum_implied_ok _ Hpos). simpl.
  fold p. fold margin. rewrite Hconf. simpl.
  split.
  - intros (Hp & Hm & Hc).
    apply Qltb_lt in Hp. apply Qleb_le in Hm. apply Qleb_le in Hc.
    change (1.0%Q) with (10 # 10)%Q.
    assert (Hp' : Qltb p (10 # 10) = true).
    { apply Qltb_lt. apply Qltb_lt in Hp.
      apply Qlt_le_trans with 1%Q; [exact Hp|]. now vm_compute. }
    rewrite Hp', Hm, Hc. eexists. split; [reflexivity|].
    simpl. repeat split.
  - intros Hnot.
    destruct (Qltb p 1.0) eqn:Hp; [|reflexivity].
    destruct (Qleb (min_profit_threshold self) margin) eqn:Hm; [|reflexivity].
    destruct (Qleb (confidence_threshold self) conf) eqn:Hc; [|reflexivity].
    exfalso. apply Hnot. repeat split.
    + apply Qltb_lt in Hp. apply Qlt_le_trans with (1.0)%Q; [exact Hp|].
      now vm_compute.
    + now apply Qleb_le.
    + now apply Qleb_le.
Qed.


End Detection.



(** The fixture of [test_moneyline_arbitrage_detection_basic] (total about
    0.788, margin about 21.2): with two bookmakers the confidence score is
    0.85 * 0.7 * 0.74 = 0.4403, below the default threshold 0.7, and the
    detector returns nothing where the test expects one opportunity. *)
Example moneyline_fixture_rejected_by_confidence :
  detect_moneyline_arbitrage std_q "2025-06-09T07:41:09+00:00"
    (new_engine 0.1 0.95 true 0.7) arbitrage_game = Ok [] /\
  _calculate_confidence_score std_q (new_engine 0.1 0.95 true 0.7)
    [(KStr "Team A",
      {| price := 2.20; bookmaker := VStr "Bookmaker 1"; point := None |});
     (KStr "Team B",
      {| price := 3.00; bookmaker := VStr "Bookmaker 2"; point := None |})]
    "h2h" arbitrage_game = Ok 0.440300000000000%Q.
Proof. split; now vm_compute. Qed.

(** ** Stakes *)








Lemma fold_left_Qplus_acc (l : list Q) (a : Q) :
  (fold_left Qplus l a == a + fold_left Qplus l 0)%Q.
Proof.
  revert a. induction l as [|x l IH]; intros a; simpl.
  - ring.
  - rewrite (IH (a + x)%Q), (IH (0 + x)%Q). ring.
Qed.

Lemma py_sum_cons (x : Q) (l : list Q) : (py_sum (x :: l) == x + py_sum l)%Q.
Proof.
  unfold py_sum. simpl. rewrite fold_left_Qplus_acc. ring.
Qed.

Lemma py_sum_nil : py_sum [] = 0%Q.
Proof. reflexivity. Qed.






Section Stakes.

Variable self : EnhancedArbitrageEngine.


End Stakes.






(** ** Cross-market detection *)

Lemma analyze_cross_market_empty (self : EnhancedArbitrageEngine)
    (game_data : value) (market_combo : string * string) :
  _analyze_cross_market_combination self game_data market_combo = Ok [].
Proof.
  unfold _analyze_cross_market_combination.
  destruct (Qltb 0.9 _); [reflexivity|].
  destruct (_find_best_odds game_data (fst market_combo)) as [m1|e]; simpl;
    [|reflexivity].
  destruct (_find_best_odds game_data (snd market_combo)) as [m2|e]; simpl;
    [|reflexivity].
  destruct (_ || _); reflexivity.
Qed.

Lemma cross_market_loop (self : EnhancedArbitrageEngine) (game_data : value)
    (available_markets : list hkey) (combos : list (string * string))
    (acc : list CrossMarketOpportunity.t) :
  foldM (fun opportunities market_combo =>
           if existsb (key_eqb (KStr (fst market_combo))) available_markets
              && existsb (key_eqb (KStr (snd market_combo))) available_markets
           then
             let* cross_opportunities :=
               _analyze_cross_market_combination self game_data market_combo in
             Ok (opportunities ++ cross_opportunities)
           else Ok opportunities) acc combos
  = Ok acc.
Proof.
  induction combos as [|c combos IH]; simpl; [reflexivity|].
  destruct (_ && _).
  - rewrite analyze_cross_market_empty, bind_ret, app_nil_r.
    rewrite bind_ret. exact IH.
  - rewrite bind_ret. exact IH.
Qed.

(** C5.  Cross-market detection emits nothing: for every engine and game
    data [detect_cross_market_arbitrage] returns the empty list, since
    [_analyze_cross_market_combination] returns the empty list for every
    combination; and [_detect_game_arbitrage] returns the same
    opportunities whatever its cross-market detector returns. *)
Theorem cross_market_never_emits (self : EnhancedArbitrageEngine)
    (game_data : value) :
  detect_cross_market_arbitrage self game_data = Ok [] /\
  (forall market_combo,
      _analyze_cross_market_combination self game_data market_combo = Ok []) /\
  (forall detect_moneyline detect_spread detect_totals detect_cross
          detect_cross',
      _detect_game_arbitrage detect_moneyline detect_spread detect_totals
        detect_cross game_data
      = _detect_game_arbitrage detect_moneyline detect_spread detect_totals
          detect_cross' game_data).
Proof.
  split; [|split].
  - unfold detect_cross_market_arbitrage.
    destruct (enable_cross_market self); [|reflexivity]. cbn [negb].
    destruct (_get_available_markets game_data) as [av|e]; [|reflexivity].
    rewrite bind_ret, cross_market_loop. reflexivity.
  - intros. apply analyze_cross_market_empty.
  - intros. unfold _detect_game_arbitrage.
    destruct (detect_moneyline game_data); [|reflexivity].
    destruct (detect_spread game_data); [|reflexivity].
    destruct (detect_totals game_data); [|reflexivity].
    destruct (detect_cross game_data), (detect_cross' game_data); reflexivity.
Qed.

(** ** Absorbed errors *)

Lemma foldM_raises {A B} (f : A -> B -> result A) (x : B) (l : list B) :
  In x l -> (forall acc, exists e, f acc x = Raise e) ->
  forall acc, exists e, foldM f acc l = Raise e.
Proof.
  intros Hin Hx. induction l as [|y l IH]; [destruct Hin|].
  intros acc. simpl. destruct (f acc y) as [acc'|e] eqn:E.
  - destruct Hin as [->|Hin].
    + destruct (Hx acc) as [e He]. congruence.
    + rewrite bind_ret. now apply IH.
  - eauto.
Qed.

Lemma stakes_zero_price_raises (self : EnhancedArbitrageEngine)
    (d : pydict odds_info) (B : Q) (k : hkey) (info : odds_info) :
  In (k, info) d -> (price info == 0)%Q ->
  exists e, calculate_optimal_stakes_body self d B = Raise e.
Proof.
  intros Hin Hz. unfold calculate_optimal_stakes_body.
  destruct (foldM_raises
              (fun acc kv => let* ip := py_div 1 (price (snd kv)) in
                             Ok (dict_set (fst kv) ip acc))
              (k, info) d Hin) with (acc := @nil (hkey * Q)) as [e He].
  - intros acc. simpl. rewrite (py_div_zero _ _ Hz). simpl. eauto.
  - rewrite He. simpl. eauto.
Qed.

(** Game data whose traversal raises yields no moneyline opportunity. *)
Lemma detect_moneyline_malformed (np_std : list Q -> Q) (utc_now_iso : string)
    (self : EnhancedArbitrageEngine) (game_data : value) (e : exn) :
  ingested_quotes game_data "h2h" = Raise e ->
  detect_moneyline_arbitrage np_std utc_now_iso self game_data = Ok [].
Proof.
  intros H. apply find_best_odds_raises in H.
  unfold detect_moneyline_arbitrage, detect_moneyline_arbitrage_body.
  now rewrite H.
Qed.

(** C10.  The three detectors and [calculate_optimal_stakes] return a
    value for every input, malformed game data included; when the body of
    one of them raises, the value is the empty list (the empty dict for
    the stakes).  Game data whose h2h traversal raises is such a case for
    the moneyline detector, a zero price among the outcomes is one for the
    stakes. *)
Theorem detection_absorbs_errors (np_std : list Q -> Q) (utc_now_iso : string)
    (py_repr : value -> string) (format_plus_1f : Q -> string)
    (self : EnhancedArbitrageEngine) (game_data : value)
    (d : pydict odds_info) (B : Q) :
  (exists l,
      detect_moneyline_arbitrage np_std utc_now_iso self game_data = Ok l /\
      (forall e, detect_moneyline_arbitrage_body np_std utc_now_iso self
                   game_data = Raise e -> l = []) /\
      (forall e, ingested_quotes game_data "h2h" = Raise e -> l = [])) /\
  (exists l,
      detect_spread_arbitrage np_std utc_now_iso py_repr format_plus_1f self
        game_data = Ok l /\
      (forall e, detect_spread_arbitrage_body np_std utc_now_iso py_repr
                   format_plus_1f self game_data = Raise e -> l = [])) /\
  (exists l,
      detect_totals_arbitrage np_std utc_now_iso self game_data = Ok l /\
      (forall e, detect_totals_arbitrage_body np_std utc_now_iso self
                   game_data = Raise e -> l = [])) /\
  (exists r,
      calculate_optimal_stakes self d B = Ok r /\
      (forall e, calculate_optimal_stakes_body self d B = Raise e -> r = []) /\
      ((exists k info, In (k, info) d /\ (price info == 0)%Q) -> r = [])).
Proof.
  assert (Habs : forall A (body : result (list A)),
             exists l, try_except body [] = Ok l /\
                       (forall e, body = Raise e -> l = [])).
  { intros A [l|e0]; simpl; eexists; (split; [reflexivity|]).
    - discriminate.
    - reflexivity. }
  split.
  { destruct (Habs _ (detect_moneyline_arbitrage_body np_std utc_now_iso self
                        game_data)) as (l & Hl & Hraise).
    exists l. split; [exact Hl|]. split; [exact Hraise|].
    intros e He.
    pose proof (detect_moneyline_malformed np_std utc_now_iso self
                  game_data e He) as H0.
    change (detect_moneyline_arbitrage np_std utc_now_iso self game_data
            = Ok l) in Hl.
    congruence. }
  split; [apply Habs|]. split; [apply Habs|].
  destruct (Habs _ (calculate_optimal_stakes_body self d B))
    as (r & Hr & Hraise).
  exists r. split; [exact Hr|]. split; [exact Hraise|].
  intros (k & info & Hin & Hz).
  destruct (stakes_zero_price_raises self d B k info Hin Hz) as [e He].
  eauto.
Qed.

(** Malformed game data: a string, a missing list and a price that is a
    string end in the empty list; a zero price ends in the empty dict. *)
Lemma detection_absorbs_errors_witness :
  let game := VDict [("bookmakers",
                 VList [VDict [("markets",
                   VList [VDict [("key", VStr "h2h");
                                 ("outcomes",
                                  VList [VDict [("name", VStr "Team A");
                                                ("price", VStr "2.2")]])]])]])] in
  let d := [(KStr "Team A",
             {| price := 0; bookmaker := VStr "Book 1"; point := None |});
            (KStr "Team B",
             {| price := 3.00; bookmaker := VStr "Book 2"; point := None |})] in
  detect_moneyline_arbitrage_body std_q "now" default_engine game
    = Raise TypeError /\
  detect_moneyline_arbitrage std_q "now" default_engine game = Ok [] /\
  calculate_optimal_stakes default_engine d 1000 = Ok [].
Proof.
  cbv zeta.
  destruct (detection_absorbs_errors std_q "now" (fun _ => "") (fun _ => "")
              default_engine
              (VDict [("bookmakers",
                 VList [VDict [("markets",
                   VList [VDict [("key", VStr "h2h");
                                 ("outcomes",
                                  VList [VDict [("name", VStr "Team A");
                                                ("price", VStr "2.2")]])]])]])])
              [(KStr "Team A",
                {| price := 0; bookmaker := VStr "Book 1"; point := None |});
               (KStr "Team B",
                {| price := 3.00; bookmaker := VStr "Book 2"; point := None |})]
              1000)
    as ((l & Hl & Hl' & _) & _ & _ & (r & Hr & _ & Hz)).
  split; [reflexivity|]. split.
  - rewrite Hl. f_equal. apply (Hl' TypeError). reflexivity.
  - rewrite Hr. f_equal. apply Hz.
    exists (KStr "Team A"),
      {| price := 0; bookmaker := VStr "Book 1"; point := None |}.
    split; [now left | reflexivity].
Defined.

Example detect_moneyline_not_a_dict :
  detect_moneyline_arbitrage std_q "now" default_engine (VStr "garbage")
  = Ok [].
Proof. reflexivity. Qed.

Example detect_spread_point_not_a_number :
  detect_spread_arbitrage_body std_q "now" (fun _ => "") (fun _ => "")
    default_engine
    (VDict [("bookmakers",
       VList [VDict [("markets",
         VList [VDict [("key", VStr "spreads");
                       ("outcomes",
                        VList [VDict [("name", VStr "Team A");
                                      ("price", VNum 1.9);
                                      ("point", VStr "-5.5")]])]])]])])
  = Raise TypeError.
Proof. reflexivity. Qed.

Example detect_totals_empty_game :
  detect_totals_arbitrage std_q "now" default_engine (VDict []) = Ok [].
Proof. reflexivity. Qed.

(** ** Quota tracker *)

Lemma reset_windows_in_window (now : datetime) (self : APIQuotaManager) :
  in_window now self -> reset_windows now self = self.
Proof.
  intros [Hh Hd]. unfold reset_windows.
  rewrite Hh, Z.eqb_refl. simpl. now rewrite Hd, Z.eqb_refl.
Qed.

(** What one call does to a manager whose window is current. *)
Lemma consume_quota_cases (cost : option Z) (now : datetime)
    (self : APIQuotaManager) :
  in_window now self ->
  let c := cost_or cost (per_request_cost self) in
  (daily_limit self < daily_usage self + c)%Z /\
    consume_quota cost now self = (Raise DailyQuotaExceeded, self)
  \/
  (daily_usage self + c <= daily_limit self)%Z /\
    (hourly_limit self < hourly_usage self + c)%Z /\
    consume_quota cost now self = (Raise HourlyQuotaExceeded, self)
  \/
  (daily_usage self + c <= daily_limit self)%Z /\
    (hourly_usage self + c <= hourly_limit self)%Z /\
    consume_quota cost now self
    = (Ok tt,
       {| daily_limit := daily_limit self;
          hourly_limit := hourly_limit self;
          per_request_cost := per_request_cost self;
          daily_usage := daily_usage self + c;
          hourly_usage := hourly_usage self + c;
          current_hour := current_hour self;
          current_day := current_day self |}).
Proof.
  intros Hwin c. unfold consume_quota.
  rewrite (reset_windows_in_window _ _ Hwin). fold c.
  destruct (daily_limit self <? daily_usage self + c)%Z eqn:Ed.
  - left. apply Z.ltb_lt in Ed. auto.
  - right. apply Z.ltb_ge in Ed.
    destruct (hourly_limit self <? hourly_usage self + c)%Z eqn:Eh.
    + left. apply Z.ltb_lt in Eh. auto.
    + right. apply Z.ltb_ge in Eh. auto.
Qed.

Lemma consume_quota_keeps (cost : option Z) (now : datetime)
    (self : APIQuotaManager) :
  in_window now self -> within_limits self ->
  let self' := snd (consume_quota cost now self) in
  within_limits self' /\
  daily_limit self' = daily_limit self /\
  hourly_limit self' = hourly_limit self /\
  current_hour self' = current_hour self /\
  current_day self' = current_day self.
Proof.
  intros Hwin [Hd Hh].
  destruct (consume_quota_cases cost now self Hwin)
    as [(_ & ->)|[(_ & _ & ->)|(Hd' & Hh' & ->)]]; simpl;
    unfold within_limits; simpl; auto.
Qed.

Lemma consume_all_within_limits (calls : list (option Z * datetime))
    (self : APIQuotaManager) :
  (forall call, In call calls -> in_window (snd call) self) ->
  within_limits self ->
  within_limits (consume_all calls self).
Proof.
  revert self. induction calls as [|[cost now] calls IH]; intros self Hwin Hlim;
    simpl; [exact Hlim|].
  assert (Hnow : in_window now self) by (apply (Hwin (cost, now)); now left).
  destruct (consume_quota_keeps cost now self Hnow Hlim)
    as (Hlim' & _ & _ & Hh & Hd).
  apply IH; [|exact Hlim'].
  intros call Hin. destruct (Hwin call (or_intror Hin)) as [H1 H2].
  split; congruence.
Qed.

(** C4, as amended.  For a call inside the manager's current window,
    with [c] the cost charged (the given cost, or [per_request_cost] when
    the cost is omitted or 0): [consume_quota] raises the daily error
    exactly when [daily_usage + c > daily_limit], the hourly error
    exactly when the daily check passes and
    [hourly_usage + c > hourly_limit]; a raising call leaves the manager
    unchanged; a succeeding call adds [c] to both counters; hence after
    any run of calls inside one window that starts within the limits,
    neither counter exceeds its limit. *)
Theorem consume_quota_within_window (cost : option Z) (now : datetime)
    (self : APIQuotaManager) :
  in_window now self ->
  let c := cost_or cost (per_request_cost self) in
  let out := consume_quota cost now self in
  (forall c', cost = Some c' -> c' <> 0%Z -> c = c') /\
  (fst out = Raise DailyQuotaExceeded <->
   (daily_limit self < daily_usage self + c)%Z) /\
  (fst out = Raise HourlyQuotaExceeded <->
   (daily_usage self + c <= daily_limit self)%Z /\
   (hourly_limit self < hourly_usage self + c)%Z) /\
  (forall e, fst out = Raise e -> snd out = self) /\
  (fst out = Ok tt ->
   daily_usage (snd out) = (daily_usage self + c)%Z /\
   hourly_usage (snd out) = (hourly_usage self + c)%Z) /\
  (forall calls,
      (forall call, In call calls -> in_window (snd call) self) ->
      within_limits self ->
      within_limits (consume_all calls self)).
Proof.
  intros Hwin c out. split.
  { intros c' -> Hc'. unfold c, cost_or.
    destruct (c' =? 0)%Z eqn:E; [|reflexivity].
    apply Z.eqb_eq in E. contradiction. }
  split; [|split; [|split; [|split]]].
  - destruct (consume_quota_cases cost now self Hwin)
      as [(Hd & E)|[(Hd & Hh & E)|(Hd & Hh & E)]];
      unfold out; fold c in Hd, E |- *; rewrite E; simpl;
      split; intros H; try discriminate; try lia; reflexivity.
  - destruct (consume_quota_cases cost now self Hwin)
      as [(Hd & E)|[(Hd & Hh & E)|(Hd & Hh & E)]];
      unfold out; fold c in Hd, E |- *; try fold c in Hh; rewrite E; simpl;
      split; intros H; try discriminate; try lia; auto.
  - intros e. destruct (consume_quota_cases cost now self Hwin)
      as [(Hd & E)|[(Hd & Hh & E)|(Hd & Hh & E)]];
      unfold out; rewrite E; simpl; [reflexivity | reflexivity | discriminate].
  - destruct (consume_quota_cases cost now self Hwin)
      as [(Hd & E)|[(Hd & Hh & E)|(Hd & Hh & E)]];
      unfold out; rewrite E; simpl; try discriminate. auto.
  - intros calls. apply consume_all_within_limits.
Qed.

Lemma consume_quota_within_window_witness :
  let self := new_quota 1000 100 1 {| hour := 3; date := 10 |} in
  let now := {| hour := 3; date := 10 |} in
  let out := consume_quota (Some 5%Z) now self in
  fst out = Ok tt /\
  daily_usage (snd out) = 5%Z /\ hourly_usage (snd out) = 5%Z /\
  within_limits (consume_all [(Some 100%Z, now); (None, now)] self).
Proof.
  cbv zeta.
  destruct (consume_quota_within_window (Some 5%Z) {| hour := 3; date := 10 |}
              (new_quota 1000 100 1 {| hour := 3; date := 10 |}))
    as (_ & _ & _ & _ & Hok & Hall).
  - split; reflexivity.
  - split; [reflexivity|]. split; [apply Hok; reflexivity|].
    split; [apply Hok; reflexivity|].
    apply Hall.
    + intros call [<-|[<-|[]]]; split; reflexivity.
    + split; simpl; lia.
Defined.

(** A call in a new hour that fails the daily check has already reset
    the hourly counter: the failing call changes [hourly_usage]. *)
Lemma consume_quota_failing_call_resets :
  let self := {| daily_limit := 1000; hourly_limit := 100;
                 per_request_cost := 1;
                 daily_usage := 1000; hourly_usage := 100;
                 current_hour := 3; current_day := 10 |} in
  let out := consume_quota (Some 1%Z) {| hour := 4; date := 10 |} self in
  (daily_limit self < daily_usage self + 1)%Z /\
  fst out = Raise DailyQuotaExceeded /\
  hourly_usage (snd out) = 0%Z /\
  hourly_usage (snd out) <> hourly_usage self.
Proof.
  cbv zeta. simpl. repeat split; first [reflexivity | lia | discriminate].
Qed.

(** A cost of 0 is charged as [per_request_cost]. *)
Example consume_quota_zero_cost :
  let self := {| daily_limit := 1000; hourly_limit := 100;
                 per_request_cost := 1;
                 daily_usage := 1000; hourly_usage := 0;
                 current_hour := 3; current_day := 10 |} in
  fst (consume_quota (Some 0%Z) {| hour := 3; date := 10 |} self)
  = Raise DailyQuotaExceeded.
Proof. reflexivity. Qed.

(** ** Circuit breaker *)

Lemma is_open_closed (service_name : string) (now : Q) (self : CircuitBreaker) :
  service_name ∉ open_circuits self ->
  is_open service_name now self = (false, self).
Proof.
  intros H. unfold is_open. now rewrite bool_decide_eq_false_2.
Qed.

Lemma is_open_blocks (service_name : string) (now : Q) (self : CircuitBreaker) :
  service_name ∈ open_circuits self ->
  (now - default 0%Q (last_failure_times self !! service_name)
   <= recovery_timeout self)%Q ->
  is_open service_name now self = (true, self).
Proof.
  intros H Ht. unfold is_open. rewrite bool_decide_eq_true_2 by exact H.
  apply Qltb_ge in Ht. now rewrite Ht.
Qed.

(** C3, as amended.  For a source whose circuit is open, once more than
    [recovery_timeout] has elapsed since its last failure, [is_open]
    returns false and the call itself closes the circuit: it removes the
    source from the open set and resets its failure count to 0, leaving
    the last-failure times alone; from then on [is_open] answers false
    for that source at any time, until failures are recorded again. *)
Theorem is_open_after_timeout (service_name : string) (now : Q)
    (self : CircuitBreaker) :
  service_name ∈ open_circuits self ->
  (recovery_timeout self
   < now - default 0%Q (last_failure_times self !! service_name))%Q ->
  let out := is_open service_name now self in
  fst out = false /\
  failure_counts (snd out) = <[service_name := 0%Z]> (failure_counts self) /\
  failure_counts (snd out) !! service_name = Some 0%Z /\
  open_circuits (snd out) = open_circuits self ∖ {[service_name]} /\
  (service_name ∉ open_circuits (snd out)) /\
  last_failure_times (snd out) = last_failure_times self /\
  (forall now', is_open service_name now' (snd out) = (false, snd out)).
Proof.
  intros Hopen Ht out.
  assert (E : out
    = (false,
       {| failure_threshold := failure_threshold self;
          recovery_timeout := recovery_timeout self;
          failure_counts := <[service_name := 0%Z]> (failure_counts self);
          last_failure_times := last_failure_times self;
          open_circuits := open_circuits self ∖ {[service_name]} |})).
  { unfold out, is_open. rewrite bool_decide_eq_true_2 by exact Hopen.
    apply Qltb_lt in Ht. now rewrite Ht. }
  rewrite E. simpl.
  assert (Hnot : service_name ∉ open_circuits self ∖ {[service_name]}).
  { rewrite elem_of_difference, elem_of_singleton. tauto. }
  repeat split; try reflexivity.
  - apply lookup_insert_eq.
  - exact Hnot.
  - intros now'. now apply is_open_closed.
Qed.

Lemma is_open_after_timeout_witness :
  let s := "odds_api_basketball_wnba" in
  let self := fail_times 5 s 0 (new_breaker 5 60) in
  let out := is_open s 61 self in
  fst out = false /\
  failure_counts (snd out) !! s = Some 0%Z /\
  s ∉ open_circuits (snd out).
Proof.
  cbv zeta.
  destruct (is_open_after_timeout "odds_api_basketball_wnba" 61
              (fail_times 5 "odds_api_basketball_wnba" 0 (new_breaker 5 60)))
    as (H1 & _ & H2 & _ & H3 & _).
  - apply (bool_decide_unpack _). vm_compute. exact I.
  - vm_compute. reflexivity.
  - auto.
Defined.

(** Five failures open the circuit with a failure count of 5; the
    [is_open] call made 61 s later answers false and leaves a count of
    0, not 5. *)
Lemma is_open_trial_resets_count :
  let s := "odds_api_basketball_wnba" in
  let self := fail_times 5 s 0 (new_breaker 5 60) in
  let out := is_open s 61 self in
  s ∈ open_circuits self /\
  (recovery_timeout self
   < 61 - default 0%Q (last_failure_times self !! s))%Q /\
  failure_counts self !! s = Some 5%Z /\
  fst out = false /\
  failure_counts (snd out) !! s = Some 0%Z /\
  failure_counts (snd out) !! s <> failure_counts self !! s.
Proof.
  cbv zeta. split; [apply (bool_decide_unpack _); vm_compute; exact I|].
  split; [vm_compute; reflexivity|].
  assert (H5 : failure_counts
                 (fail_times 5 "odds_api_basketball_wnba" 0 (new_breaker 5 60))
               !! "odds_api_basketball_wnba" = Some 5%Z)
    by (vm_compute; reflexivity).
  assert (H0 : failure_counts
                 (snd (is_open "odds_api_basketball_wnba" 61
                         (fail_times 5 "odds_api_basketball_wnba" 0
                            (new_breaker 5 60))))
               !! "odds_api_basketball_wnba" = Some 0%Z)
    by (vm_compute; reflexivity).
  split; [exact H5|]. split; [vm_compute; reflexivity|].
  split; [exact H0|]. rewrite H0, H5. discriminate.
Qed.

(** Five failures at time 0 block the source at 10 s, 30 s and 50 s and
    let it through again at 61 s. *)
Example circuit_breaker_recovery :
  let s := "odds_api_basketball_wnba" in
  let self := fail_times 5 s 0 (new_breaker 5 60) in
  fst (is_open s 10 self) = true /\
  fst (is_open s 30 self) = true /\
  fst (is_open s 50 self) = true /\
  fst (is_open s 61 self) = false /\
  fst (is_open s 10 (fail_times 4 s 0 (new_breaker 5 60))) = false.
Proof. cbv zeta. repeat split; vm_compute; reflexivity. Qed.

(** ** Fetch cycle *)

(** One task still running at the deadline empties the whole result. *)
Lemma wait_for_gather_pending {A} (tasks : list (task_state A)) :
  In Pending tasks -> wait_for_gather tasks = Raise TimeoutError.
Proof.
  induction tasks as [|t tasks IH]; [intros []|].
  intros [->|Hin]; unfold wait_for_gather in *; simpl; [reflexivity|].
  destruct t; [|reflexivity]. simpl. now rewrite IH.
Qed.

Lemma fetch_cycle_timeout_empty
    (fetch_single_sport : string -> task_state (string * option value))
    (sports_list : list string) (sport : string) :
  In sport sports_list -> fetch_single_sport sport = Pending ->
  fetch_multiple_sports_concurrent fetch_single_sport sports_list = (∅, 0%nat).
Proof.
  intros Hin Hp. unfold fetch_multiple_sports_concurrent.
  rewrite wait_for_gather_pending; [reflexivity|].
  rewrite <- Hp. now apply in_map.
Qed.

(** C8 at the input of [test_error_handling_in_parallel_operations]:
    "basketball_wnba" and "basketball_nba" have completed with games
    before the deadline and "timeout_sport" has not; the cycle's result
    holds neither of the completed sources. *)
Lemma fetch_cycle_timeout_drops_completed :
  let sports_list :=
    ["basketball_wnba"; "failing_sport"; "timeout_sport"; "basketball_nba"] in
  let results :=
    fst (fetch_multiple_sports_concurrent mock_fetch_single_sport sports_list) in
  (exists games, mock_fetch_single_sport "basketball_wnba"
                 = Done ("basketball_wnba", Some games)) /\
  mock_fetch_single_sport "timeout_sport" = Pending /\
  results = ∅ /\
  results !! "basketball_wnba" = None /\
  results !! "basketball_nba" = None.
Proof.
  cbv zeta. split; [eexists; reflexivity|]. split; [reflexivity|].
  rewrite (fetch_cycle_timeout_empty mock_fetch_single_sport _ "timeout_sport");
    [|simpl; auto|reflexivity].
  simpl. repeat split; apply lookup_empty.
Qed.

(** Without a pending task every completed source with a result is in
    the result dict. *)
Example fetch_cycle_all_done :
  fst (fetch_multiple_sports_concurrent mock_fetch_single_sport
         ["basketball_wnba"; "failing_sport"; "basketball_nba"])
    !! "basketball_wnba"
  = Some (VDict [("games", VList [VDict [("id", VStr "basketball_wnba_game")]])]).
Proof. vm_compute. reflexivity. Qed.

(** ** Risk assessor *)




(** * Further properties of the engine *)

(** ** Implied probability and confidence *)



Lemma py_min_le_l (a b : Q) : (py_min a b <= a)%Q.
Proof.
  unfold py_min. destruct (Qltb b a) eqn:E.
  - apply Qltb_lt in E. now apply Qlt_le_weak.
  - apply Qle_refl.
Qed.

Lemma py_min_le_r (a b : Q) : (py_min a b <= b)%Q.
Proof.
  unfold py_min. destruct (Qltb b a) eqn:E.
  - apply Qle_refl.
  - now apply Qltb_ge in E.
Qed.

Lemma py_min_glb (a b c : Q) : (c <= a)%Q -> (c <= b)%Q -> (c <= py_min a b)%Q.
Proof. unfold py_min. now destruct (Qltb b a). Qed.

Lemma py_max_ge_l (a b : Q) : (a <= py_max a b)%Q.
Proof.
  unfold py_max. destruct (Qltb a b) eqn:E.
  - apply Qltb_lt in E. now apply Qlt_le_weak.
  - apply Qle_refl.
Qed.

Lemma py_max_ge_r (a b : Q) : (b <= py_max a b)%Q.
Proof.
  unfold py_max. destruct (Qltb a b) eqn:E.
  - apply Qle_refl.
  - now apply Qltb_ge in E.
Qed.

Lemma py_max_lub (a b c : Q) : (a <= c)%Q -> (b <= c)%Q -> (py_max a b <= c)%Q.
Proof. unfold py_max. now destruct (Qltb a b). Qed.

(** [min(1.0, max(0.0, x))] lies in the unit interval. *)
Lemma clamp_unit (x : Q) :
  (0 <= py_min 1.0 (py_max 0.0 x) <= 1)%Q.
Proof.
  split.
  - apply py_min_glb; [discriminate|].
    apply Qle_trans with 0.0%Q; [discriminate | apply py_max_ge_l].
  - apply Qle_trans with 1.0%Q; [apply py_min_le_l | discriminate].
Qed.

Lemma mapM_length {A B} (f : A -> result B) (l : list A) (l' : list B) :
  mapM f l = Ok l' -> length l' = length l.
Proof.
  revert l'. induction l as [|x l IH]; intros l' H; simpl in H.
  - now injection H as <-.
  - bind_inv H. bind_inv H. injection H as <-. simpl.
    now rewrite (IH _ Ha0).
Qed.

Lemma mapM_raises {A B} (f : A -> result B) (x : A) (l : list A) :
  In x l -> (exists e, f x = Raise e) -> exists e, mapM f l = Raise e.
Proof.
  intros Hin [e He]. induction l as [|y l IH]; [destruct Hin|].
  simpl. destruct (f y) as [b|e0] eqn:E; [|eauto].
  destruct Hin as [->|Hin]; [congruence|].
  destruct (IH Hin) as [e1 ->]. simpl. eauto.
Qed.

Lemma py_set_length (xs : list hkey) : (length (py_set xs) <= length xs)%nat.
Proof.
  induction xs as [|x xs IH]; simpl; [lia|].
  destruct (existsb (key_eqb x) (py_set xs)); simpl; lia.
Qed.

(** X2.  The confidence score is always a value in [0, 1], whatever the
    selection, the market type and the standard deviation reported; when
    a bookmaker name of the selection is unhashable (a list or a dict)
    the score is the fallback 0.5. *)
Theorem confidence_score_unit_interval (np_std : list Q -> Q)
    (self : EnhancedArbitrageEngine) (best : pydict odds_info)
    (market_key : string) (game_data : value) :
  exists conf,
    _calculate_confidence_score np_std self best market_key game_data
    = Ok conf /\
    (0 <= conf <= 1)%Q /\
    ((exists k info e, In (k, info) best /\
                       py_hash (bookmaker info) = Raise e) ->
     conf = 0.5%Q).
Proof.
  unfold _calculate_confidence_score.
  destruct (mapM (fun info => py_hash (bookmaker info)) (dict_values best))
    as [books|e] eqn:Hbooks.
  - rewrite bind_ret. cbv zeta. rewrite try_except_ret.
    eexists. split; [reflexivity|]. split; [apply clamp_unit|].
    intros (k & info & e & Hin & He).
    destruct (mapM_raises (fun info => py_hash (bookmaker info)) info
                (dict_values best)) as [e' He'].
    + unfold dict_values. apply in_map_iff. exists (k, info). auto.
    + eauto.
    + congruence.
  - simpl. exists 0.5%Q. split; [reflexivity|].
    split; [split; discriminate | reflexivity].
Qed.

Lemma confidence_score_unit_interval_witness :
  _calculate_confidence_score std_q default_engine
    [(KStr "Team A",
      {| price := 2.20; bookmaker := VList [VStr "Book 1"]; point := None |})]
    "h2h" (VDict []) = Ok 0.5%Q.
Proof.
  destruct (confidence_score_unit_interval std_q default_engine
              [(KStr "Team A",
                {| price := 2.20; bookmaker := VList [VStr "Book 1"];
                   point := None |})]
              "h2h" (VDict [])) as (conf & Hc & _ & Hhalf).
  rewrite Hc. f_equal. apply Hhalf.
  exists (KStr "Team A"),
    {| price := 2.20; bookmaker := VList [VStr "Book 1"]; point := None |},
    TypeError.
  split; [now left | reflexivity].
Defined.

Lemma inject_nat_le (n m : nat) :
  (n <= m)%nat -> (inject_Z (Z.of_nat n) <= inject_Z (Z.of_nat m))%Q.
Proof. intros H. rewrite <- Zle_Qle. lia. Qed.

(** With the engine's own priors, an h2h selection of at most three
    outcomes scores at most 0.85 * 0.8 = 0.68. *)
Lemma h2h_confidence_ceiling (np_std : list Q -> Q) (mp ms : Q) (cross : bool)
    (ct : Q) (best : pydict odds_info) (game_data : value) (conf : Q) :
  _calculate_confidence_score np_std (new_engine mp ms cross ct) best "h2h"
    game_data = Ok conf ->
  (length best <= 3)%nat ->
  (conf <= 0.68)%Q.
Proof.
  unfold _calculate_confidence_score. intros H Hlen.
  destruct (mapM (fun info => py_hash (bookmaker info)) (dict_values best))
    as [books|e] eqn:Hbooks.
  - rewrite bind_ret in H. cbv zeta in H. rewrite try_except_ret in H.
    injection H as <-.
    change (match assoc_str ("h2h" ++ "_accuracy")
                    (bayesian_priors (new_engine mp ms cross ct)) with
            | Some x => x
            | None => 0.8%Q
            end) with 0.85%Q.
    set (n := length (py_set books)).
    assert (Hn : (inject_Z (Z.of_nat n) <= 3)%Q).
    { change 3%Q with (inject_Z (Z.of_nat 3)). apply inject_nat_le.
      unfold n. pose proof (py_set_length books) as Hs.
      apply mapM_length in Hbooks. unfold dict_values in Hbooks.
      rewrite length_map in Hbooks. lia. }
    assert (Hn0 : (0 <= inject_Z (Z.of_nat n))%Q).
    { change 0%Q with (inject_Z (Z.of_nat 0)). apply inject_nat_le. lia. }
    set (bf := py_min 1.0 (0.5 + inject_Z (Z.of_nat n) * 0.1)).
    set (df := py_min 1.0 (0.7 + _ * 0.1)).
    assert (Hbf1 : (bf <= 0.8)%Q).
    { apply Qle_trans with (0.5 + inject_Z (Z.of_nat n) * 0.1)%Q;
        [apply py_min_le_r | lra]. }
    assert (Hbf0 : (0.5 <= bf)%Q) by (apply py_min_glb; lra).
    assert (Hdf : (df <= 1)%Q).
    { apply Qle_trans with 1.0%Q; [apply py_min_le_l | discriminate]. }
    apply Qle_trans with (py_max 0.0 (0.85 * bf * df))%Q;
      [apply py_min_le_r|].
    apply py_max_lub; [discriminate|]. nra.
  - simpl in H. injection H as <-. discriminate.
Qed.

(** X3.  An engine with the built-in priors and a confidence threshold
    above 0.68 (the default is 0.7) returns no moneyline opportunity
    for a game whose h2h selection has at most three outcomes, whatever
    the prices: the bookmaker factor caps the score at 0.68. *)
Theorem moneyline_needs_four_outcomes (np_std : list Q -> Q)
    (utc_now_iso : string) (mp ms : Q) (cross : bool) (ct : Q)
    (game_data : value) (best : pydict odds_info) :
  _find_best_odds game_data "h2h" = Ok best ->
  (length best <= 3)%nat ->
  (0.68 < ct)%Q ->
  detect_moneyline_arbitrage np_std utc_now_iso (new_engine mp ms cross ct)
    game_data = Ok [].
Proof.
  intros Hbest Hlen Hct.
  destruct (find_best_odds_dict _ _ _ Hbest) as [d ->].
  unfold detect_moneyline_arbitrage, detect_moneyline_arbitrage_body.
  rewrite Hbest, bind_ret. cbv zeta.
  destruct (length best <? 2)%nat; [reflexivity|].
  destruct (check_arbitrage_gates np_std utc_now_iso
              (new_engine mp ms cross ct) d MONEYLINE "h2h" best None None []
              (find_best_odds_positive _ _ _ Hbest))
    as (conf & Hconf & _ & Hno).
  rewrite Hno; [reflexivity|].
  intros (_ & _ & Hc).
  pose proof (h2h_confidence_ceiling _ _ _ _ _ _ _ _ Hconf Hlen) as Hceil.
  change (confidence_threshold (new_engine mp ms cross ct)) with ct in Hc.
  lra.
Qed.

Lemma moneyline_needs_four_outcomes_witness :
  detect_moneyline_arbitrage std_q "2025-06-09T07:41:09+00:00"
    (new_engine 0.1 0.95 true 0.7) arbitrage_game = Ok [].
Proof.
  apply (moneyline_needs_four_outcomes std_q "2025-06-09T07:41:09+00:00"
           0.1 0.95 true 0.7 arbitrage_game
           [(KStr "Team A",
             {| price := 2.20; bookmaker := VStr "Bookmaker 1"; point := None |});
            (KStr "Team B",
             {| price := 3.00; bookmaker := VStr "Bookmaker 2"; point := None |})]).
  - reflexivity.
  - simpl. lia.
  - reflexivity.
Defined.

(** ** Grouping by point *)











(** ** What the detectors emit *)







(** With a confidence threshold of 0.3 the game [lines_game] yields one
    spread and one totals opportunity. *)
Example lines_game_opportunities :
  let self := new_engine 1.0 0.95 true 0.3 in
  (exists o,
      detect_spread_arbitrage std_q "now" (fun _ => "") (fun _ => "") self
        lines_game = Ok [o] /\
      ArbitrageOpportunity.spread_value o = Some (KNum 5.5)) /\
  (exists o,
      detect_totals_arbitrage std_q "now" self lines_game = Ok [o] /\
      ArbitrageOpportunity.total_value o = Some (KNum 165.5)).
Proof.
  cbv zeta. split; eexists; (split; [vm_compute; reflexivity | reflexivity]).
Qed.

(** ** Best odds of a totals or spread group *)










(** ** The summary entries of the stakes *)




Lemma py_div_Ok_inv (a b q : Q) : py_div a b = Ok q -> ~ (b == 0)%Q.
Proof.
  unfold py_div. destruct (Qeq_bool b 0) eqn:E; [discriminate|].
  intros _ Hb. apply Qeq_bool_iff in Hb. congruence.
Qed.

Lemma py_sum_zeros (l : list Q) :
  Forall (fun x => x == 0)%Q l -> (py_sum l == 0)%Q.
Proof.
  induction 1 as [|x l Hx _ IH].
  - reflexivity.
  - rewrite py_sum_cons, Hx, IH. reflexivity.
Qed.

(** X11.  When [bankroll * max_stake_percentage] is 0 (no bankroll, or
    nothing of it may be staked) the result is the empty dict for every
    selection: all stakes are 0 and the profit percentage divides by the
    zero total investment. *)
Theorem optimal_stakes_nothing_to_stake (self : EnhancedArbitrageEngine)
    (d : pydict odds_info) (B : Q) :
  (B * max_stake_percentage self == 0)%Q ->
  calculate_optimal_stakes self d B = Ok [].
Proof.
  intros HB. unfold calculate_optimal_stakes.
  destruct (calculate_optimal_stakes_body self d B) as [r|e] eqn:Hbody;
    [|reflexivity].
  exfalso. unfold calculate_optimal_stakes_body in Hbody.
  bind_inv Hbody. cbv zeta in Hbody. bind_inv Hbody.
  assert (Hzero : forall k v, In (k, v) a0 -> (v == 0)%Q).
  { refine (foldM_inv (fun acc : pydict Q =>
                         forall k v, In (k, v) acc -> (v == 0)%Q)
                      _ _ _ _ _ _ Ha0).
    - intros acc kv acc' Hacc H. bind_inv H. injection H as <-.
      intros k v Hin. apply dict_set_In in Hin as [->|Hin]; [|eauto].
      rewrite HB. ring.
    - intros k v []. }
  bind_inv Hbody. bind_inv Hbody. bind_inv Hbody. bind_inv Hbody.
  apply py_div_Ok_inv in Ha4. apply Ha4. apply py_sum_zeros.
  apply List.Forall_forall. intros x Hin. unfold dict_values in Hin.
  apply in_map_iff in Hin as ([k v] & <- & Hin). simpl. eauto.
Qed.

Lemma optimal_stakes_nothing_to_stake_witness :
  calculate_optimal_stakes (new_engine 1.0 0 true 0.7)
    [(KStr "Team A",
      {| price := 2.20; bookmaker := VStr "Book 1"; point := None |});
     (KStr "Team B",
      {| price := 3.00; bookmaker := VStr "Book 2"; point := None |})]
    1000 = Ok [].
Proof.
  apply optimal_stakes_nothing_to_stake. reflexivity.
Defined.

(** * Further properties of the processor *)

(** ** Circuit breaker *)

Lemma record_failure_effect (s : string) (now : Q) (self : CircuitBreaker) :
  let self' := record_failure s now self in
  default 0%Z (failure_counts self' !! s)
  = (default 0%Z (failure_counts self !! s) + 1)%Z /\
  (s ∈ open_circuits self' <->
   s ∈ open_circuits self \/
   (failure_threshold self <= default 0%Z (failure_counts self !! s) + 1)%Z) /\
  last_failure_times self' !! s = Some now /\
  failure_threshold self' = failure_threshold self /\
  recovery_timeout self' = recovery_timeout self.
Proof.
  unfold record_failure. simpl. rewrite !lookup_insert_eq. simpl.
  split; [reflexivity|]. split; [|auto].
  destruct (failure_threshold self
            <=? default 0%Z (failure_counts self !! s) + 1)%Z eqn:E.
  - apply Z.leb_le in E. rewrite elem_of_union, elem_of_singleton. tauto.
  - apply Z.leb_gt in E. split; [auto|]. intros [H|H]; [exact H | lia].
Qed.

Lemma fail_times_effect (n : nat) (s : string) (now : Q)
    (self : CircuitBreaker) :
  let self' := fail_times n s now self in
  default 0%Z (failure_counts self' !! s)
  = (default 0%Z (failure_counts self !! s) + Z.of_nat n)%Z /\
  (s ∈ open_circuits self' <->
   s ∈ open_circuits self \/
   ((1 <= n)%nat /\
    (failure_threshold self
     <= default 0%Z (failure_counts self !! s) + Z.of_nat n)%Z)) /\
  failure_threshold self' = failure_threshold self /\
  recovery_timeout self' = recovery_timeout self /\
  ((1 <= n)%nat -> last_failure_times self' !! s = Some now).
Proof.
  revert self. induction n as [|n IH]; intros self; cbn [fail_times].
  - cbv zeta. split; [lia|]. split; [|split; [reflexivity|split; [reflexivity|lia]]].
    split; [auto|]. intros [H|[H _]]; [exact H | lia].
  - destruct (record_failure_effect s now self)
      as (Hc & Ho & Hl & Ht & Hr).
    destruct (IH (record_failure s now self)) as (Hc' & Ho' & Ht' & Hr' & Hl').
    cbv zeta in *. rewrite Hc', Hc, Ho', Ho, Ht', Hr', Ht, Hr.
    split; [lia|]. split; [|split; [reflexivity|split; [reflexivity|]]].
    + split.
      * intros [[H|H]|[H1 H2]]; [now left | right; lia | right; lia].
      * intros [H|[_ H]]; [left; now left|].
        destruct n as [|n']; [left; right; lia | right; lia].
    + intros _. destruct n as [|n']; [exact Hl | apply Hl'; lia].
Qed.

(** X12.  From a fresh breaker, [n >= 1] consecutive failures of a
    service leave its failure count at [n] and its circuit open exactly
    when [n] has reached [failure_threshold]; the last-failure time is
    that of the latest failure. *)
Theorem circuit_opens_at_threshold (n : nat) (s : string) (now : Q)
    (threshold : Z) (timeout : Q) :
  (1 <= n)%nat ->
  let self := fail_times n s now (new_breaker threshold timeout) in
  failure_counts self !! s = Some (Z.of_nat n) /\
  (s ∈ open_circuits self <-> (threshold <= Z.of_nat n)%Z) /\
  last_failure_times self !! s = Some now.
Proof.
  intros Hn self.
  destruct (fail_times_effect n s now (new_breaker threshold timeout))
    as (Hc & Ho & _ & _ & Hl).
  fold self in Hc, Ho, Hl. simpl in Hc, Ho.
  rewrite lookup_empty in Hc, Ho. simpl in Hc, Ho.
  split; [|split; [|auto]].
  - destruct n as [|n']; [lia|]. cbn [fail_times] in *.
    destruct (failure_counts self !! s) as [c|] eqn:E.
    + simpl in Hc. now subst c.
    + exfalso. unfold self in E.
      clear -E. revert E.
      generalize (new_breaker threshold timeout).
      induction n' as [|m IH]; intros cb; cbn [fail_times].
      * unfold record_failure. simpl. rewrite !lookup_insert_eq.
        discriminate.
      * intros E. apply (IH (record_failure s now cb)). exact E.
  - rewrite Ho. split.
    + intros [H|[_ H]]; [now apply not_elem_of_empty in H | exact H].
    + intros H. right. split; [exact Hn | exact H].
Qed.

Lemma circuit_opens_at_threshold_witness :
  let self := fail_times 5 "odds_api_basketball_wnba" 0 (new_breaker 5 60) in
  failure_counts self !! "odds_api_basketball_wnba" = Some 5%Z /\
  "odds_api_basketball_wnba" ∈ open_circuits self.
Proof.
  intros self.
  destruct (circuit_opens_at_threshold 5 "odds_api_basketball_wnba" 0 5 60)
    as (Hc & Ho & _); [lia|].
  split; [exact Hc | apply Ho; lia].
Defined.

(** X13.  A recorded success wipes the slate of a service: its count is
    0, [is_open] answers false at any time and leaves the breaker alone,
    and the circuit is open again after [n >= 1] further failures exactly
    when [n] reaches [failure_threshold]. *)
Theorem success_closes_circuit (s : string) (self : CircuitBreaker)
    (n : nat) (now : Q) :
  let closed := record_success s self in
  failure_counts closed !! s = Some 0%Z /\
  (forall t, is_open s t closed = (false, closed)) /\
  ((1 <= n)%nat ->
   (s ∈ open_circuits (fail_times n s now closed) <->
    (failure_threshold self <= Z.of_nat n)%Z)).
Proof.
  intros closed.
  assert (Hnot : s ∉ open_circuits closed).
  { unfold closed, record_success. simpl.
    rewrite elem_of_difference, elem_of_singleton. tauto. }
  assert (Hc : failure_counts closed !! s = Some 0%Z)
    by apply lookup_insert_eq.
  split; [exact Hc|]. split; [intros t; now apply is_open_closed|].
  intros Hn. destruct (fail_times_effect n s now closed) as (_ & Ho & _).
  cbv zeta in Ho. rewrite Ho, Hc. simpl.
  change (failure_threshold closed) with (failure_threshold self).
  split; [intros [H|[_ H]]; [contradiction | lia] | intros H; right; lia].
Qed.

Lemma success_closes_circuit_witness :
  let s := "odds_api_basketball_wnba" in
  let self := fail_times 5 s 0 (new_breaker 5 60) in
  (s ∉ open_circuits (fail_times 4 s 10 (record_success s self))) /\
  (s ∈ open_circuits (fail_times 5 s 10 (record_success s self))).
Proof.
  intros s self.
  destruct (success_closes_circuit s self 4 10) as (_ & _ & H4).
  destruct (success_closes_circuit s self 5 10) as (_ & _ & H5).
  assert (Ht : failure_threshold self = 5%Z) by (vm_compute; reflexivity).
  split.
  - intros H. apply H4 in H; [|lia]. rewrite Ht in H. lia.
  - apply H5; [lia|]. rewrite Ht. lia.
Defined.

Lemma is_open_answer_ext (s : string) (now : Q) (a b : CircuitBreaker) :
  (s ∈ open_circuits a <-> s ∈ open_circuits b) ->
  last_failure_times a !! s = last_failure_times b !! s ->
  recovery_timeout a = recovery_timeout b ->
  fst (is_open s now a) = fst (is_open s now b).
Proof.
  intros Ho Hl Hr. unfold is_open.
  rewrite (bool_decide_ext _ _ Ho), Hl, Hr.
  destruct (bool_decide (s ∈ open_circuits b)); [|reflexivity].
  destruct (Qltb _ _); reflexivity.
Qed.

(** X14.  Services are isolated: recording a failure or a success for
    one service, or asking [is_open] about it, never changes what
    [is_open] answers for another service. *)
Theorem circuit_breaker_isolation (s s' : string) (t now : Q)
    (self : CircuitBreaker) :
  s <> s' ->
  fst (is_open s' now (record_failure s t self))
  = fst (is_open s' now self) /\
  fst (is_open s' now (record_success s self))
  = fst (is_open s' now self) /\
  fst (is_open s' now (snd (is_open s t self)))
  = fst (is_open s' now self).
Proof.
  intros Hne. split; [|split].
  - apply is_open_answer_ext; simpl.
    + destruct (_ <=? _)%Z; [|reflexivity].
      rewrite elem_of_union, elem_of_singleton. split; [|auto].
      intros [H|H]; [congruence | exact H].
    + now rewrite lookup_insert_ne.
    + reflexivity.
  - apply is_open_answer_ext; simpl; [|reflexivity|reflexivity].
    rewrite elem_of_difference, elem_of_singleton. split; [tauto|].
    intros H. split; [exact H | congruence].
  - unfold is_open at 2.
    destruct (bool_decide (s ∈ open_circuits self)); [|reflexivity].
    destruct (Qltb _ _); [|reflexivity].
    apply is_open_answer_ext; simpl; [|reflexivity|reflexivity].
    rewrite elem_of_difference, elem_of_singleton. split; [tauto|].
    intros H. split; [exact H | congruence].
Qed.

Lemma circuit_breaker_isolation_witness :
  let self := fail_times 5 "odds_api_basketball_wnba" 0 (new_breaker 5 60) in
  fst (is_open "odds_api_basketball_nba" 30
         (record_failure "odds_api_basketball_wnba" 20 self))
  = fst (is_open "odds_api_basketball_nba" 30 self).
Proof.
  intros self.
  apply (circuit_breaker_isolation "odds_api_basketball_wnba"
           "odds_api_basketball_nba" 20 30 self).
  discriminate.
Defined.


(** ** Quota manager across windows *)

Lemma reset_windows_effect (now : datetime) (self : APIQuotaManager) :
  let self' := reset_windows now self in
  in_window now self' /\
  daily_limit self' = daily_limit self /\
  hourly_limit self' = hourly_limit self /\
  per_request_cost self' = per_request_cost self /\
  hourly_usage self'
  = (if (hour now =? current_hour self)%Z then hourly_usage self else 0%Z) /\
  daily_usage self'
  = (if (date now =? current_day self)%Z then daily_usage self else 0%Z).
Proof.
  unfold reset_windows, in_window.
  destruct (hour now =? current_hour self)%Z eqn:Eh;
    destruct (date now =? current_day self)%Z eqn:Ed; simpl;
    rewrite ?Ed; simpl;
    try apply Z.eqb_eq in Eh; try apply Z.eqb_eq in Ed; auto 10.
Qed.

Lemma consume_quota_reset (cost : option Z) (now : datetime)
    (self : APIQuotaManager) :
  consume_quota cost now self
  = consume_quota cost now (reset_windows now self).
Proof.
  destruct (reset_windows_effect now self) as (Hw & _ & _ & Hc & _).
  unfold consume_quota.
  rewrite (reset_windows_in_window _ _ Hw). cbv zeta in Hc. rewrite Hc.
  reflexivity.
Qed.

(** X15.  After every call of [consume_quota], also a raising one, the
    manager's window is the clock's hour and day and the limits are as
    before; the call charges [c] (the cost, or [per_request_cost]) on top
    of the hourly counter if the clock's hour of day is the stored one
    and on top of 0 otherwise, and likewise the daily counter by the
    date, when it succeeds, and leaves these bases when it raises.  The
    hourly counter is thus not reset by a call in the same hour of a
    later day. *)
Theorem consume_quota_rollover (cost : option Z) (now : datetime)
    (self : APIQuotaManager) :
  let c := cost_or cost (per_request_cost self) in
  let hourly_base :=
    if (hour now =? current_hour self)%Z then hourly_usage self else 0%Z in
  let daily_base :=
    if (date now =? current_day self)%Z then daily_usage self else 0%Z in
  let out := consume_quota cost now self in
  in_window now (snd out) /\
  daily_limit (snd out) = daily_limit self /\
  hourly_limit (snd out) = hourly_limit self /\
  (fst out = Ok tt /\
   (daily_base + c <= daily_limit self)%Z /\
   (hourly_base + c <= hourly_limit self)%Z /\
   daily_usage (snd out) = (daily_base + c)%Z /\
   hourly_usage (snd out) = (hourly_base + c)%Z
   \/
   (exists e, fst out = Raise e) /\
   ((daily_limit self < daily_base + c)%Z \/
    (hourly_limit self < hourly_base + c)%Z) /\
   daily_usage (snd out) = daily_base /\
   hourly_usage (snd out) = hourly_base).
Proof.
  intros c hb db out. unfold out. rewrite consume_quota_reset.
  destruct (reset_windows_effect now self)
    as (Hw & Hdl & Hhl & Hc & Hh & Hd).
  cbv zeta in *. fold hb in Hh. fold db in Hd.
  pose proof (consume_quota_cases cost now _ Hw) as Hcases.
  cbv zeta in Hcases. rewrite Hc, Hdl, Hhl, Hh, Hd in Hcases. fold c in Hcases.
  destruct Hw as [Hwh Hwd].
  destruct Hcases as [(H1 & ->)|[(H1 & H2 & ->)|(H1 & H2 & ->)]]; simpl.
  - split; [now split|]. split; [exact Hdl|]. split; [exact Hhl|].
    right. split; [eauto|]. split; [now left|]. now split.
  - split; [now split|]. split; [exact Hdl|]. split; [exact Hhl|].
    right. split; [eauto|]. split; [now right|]. now split.
  - split; [now split|]. split; [reflexivity|]. split; [reflexivity|].
    left. now repeat split.
Qed.

Lemma consume_quota_keeps_any (cost : option Z) (now : datetime)
    (self : APIQuotaManager) :
  (0 <= daily_limit self)%Z -> (0 <= hourly_limit self)%Z ->
  within_limits self ->
  let self' := snd (consume_quota cost now self) in
  within_limits self' /\
  daily_limit self' = daily_limit self /\
  hourly_limit self' = hourly_limit self.
Proof.
  intros H0d H0h [Hd Hh]. rewrite consume_quota_reset.
  destruct (reset_windows_effect now self)
    as (Hw & Hdl & Hhl & _ & Hhu & Hdu).
  cbv zeta in *.
  assert (Hlim : within_limits (reset_windows now self)).
  { split.
    - rewrite Hdu, Hdl. destruct (date now =? current_day self)%Z; lia.
    - rewrite Hhu, Hhl. destruct (hour now =? current_hour self)%Z; lia. }
  destruct (consume_quota_keeps cost now _ Hw Hlim) as (H1 & H2 & H3 & _).
  cbv zeta in *. split; [exact H1|]. split; congruence.
Qed.

(** X16.  With non-negative limits, a manager that is within its limits
    stays within them through any run of [consume_quota] calls, made at
    any clock readings and raising or not; the remaining daily quota is
    then never negative. *)
Theorem quota_never_exceeded (calls : list (option Z * datetime))
    (self : APIQuotaManager) :
  (0 <= daily_limit self)%Z -> (0 <= hourly_limit self)%Z ->
  within_limits self ->
  within_limits (consume_all calls self) /\
  (0 <= get_remaining_quota (consume_all calls self))%Z.
Proof.
  intros H0d H0h Hlim.
  assert (H : within_limits (consume_all calls self) /\
              daily_limit (consume_all calls self) = daily_limit self).
  { revert self H0d H0h Hlim.
    induction calls as [|[cost now] calls IH]; intros self H0d H0h Hlim;
      simpl; [auto|].
    destruct (consume_quota_keeps_any cost now self H0d H0h Hlim)
      as (Hlim' & Hd & Hh). cbv zeta in *.
    destruct (IH (snd (consume_quota cost now self))) as [H1 H2];
      [congruence | congruence | exact Hlim' |].
    split; [exact H1 | congruence]. }
  destruct H as [[Hd Hh] _]. split; [split; assumption|].
  unfold get_remaining_quota. lia.
Qed.

Lemma quota_never_exceeded_witness :
  let now := {| hour := 9; date := 100 |} in
  let later := {| hour := 10; date := 101 |} in
  within_limits
    (consume_all [(Some 2, now); (None, now); (Some 3, later); (None, later)]%Z
       (new_quota 3 2 1 now)).
Proof.
  intros now later.
  apply (quota_never_exceeded
           [(Some 2, now); (None, now); (Some 3, later); (None, later)]%Z
           (new_quota 3 2 1 now)).
  - simpl. lia.
  - simpl. lia.
  - split; simpl; lia.
Defined.


(** ** Per-game detection in the processor *)




(** ** Processing metrics *)

Lemma inject_Z_nonneg (z : Z) : (0 <= z)%Z -> (0 <= inject_Z z)%Q.
Proof. intros H. unfold Qle. simpl. lia. Qed.

(** X18.  The two rate properties of [ProcessingMetrics] never divide by
    zero: [games_per_second] is 0 when no time has passed (or the clock
    went backwards) and non-negative for a non-negative game count;
    [cache_hit_rate] is 0 without requests and lies in [0, 1] for
    non-negative hit and miss counts. *)
Theorem metrics_rates_never_raise (self : ProcessingMetrics.t) :
  (exists r,
      ProcessingMetrics.games_per_second self = Ok r /\
      ((0 <= ProcessingMetrics.games_processed self)%Z -> (0 <= r)%Q) /\
      ((ProcessingMetrics.processing_time self <= 0)%Q -> r = 0%Q)) /\
  (exists r,
      ProcessingMetrics.cache_hit_rate self = Ok r /\
      ((0 <= ProcessingMetrics.cache_hits self)%Z ->
       (0 <= ProcessingMetrics.cache_misses self)%Z -> (0 <= r <= 1)%Q) /\
      ((ProcessingMetrics.cache_hits self
        + ProcessingMetrics.cache_misses self <= 0)%Z -> r = 0%Q)).
Proof.
  split.
  - unfold ProcessingMetrics.games_per_second.
    destruct (Qltb 0 (ProcessingMetrics.processing_time self)) eqn:E.
    + apply Qltb_lt in E. rewrite py_div_ok.
      * eexists. split; [reflexivity|]. split.
        -- intros Hg. apply Qle_shift_div_l; [exact E|].
           rewrite Qmult_0_l. now apply inject_Z_nonneg.
        -- intros Hle. exfalso. apply (Qlt_irrefl 0).
           eapply Qlt_le_trans; eassumption.
      * intros H0. rewrite H0 in E. now apply Qlt_irrefl in E.
    + exists 0%Q. split; [reflexivity|]. split; [discriminate | reflexivity].
  - unfold ProcessingMetrics.cache_hit_rate. cbv zeta.
    destruct (0 <? ProcessingMetrics.cache_hits self
                   + ProcessingMetrics.cache_misses self)%Z eqn:E.
    + apply Z.ltb_lt in E.
      assert (Hpos : (0 < inject_Z (ProcessingMetrics.cache_hits self
                                    + ProcessingMetrics.cache_misses self))%Q).
      { unfold Qlt. simpl. lia. }
      rewrite py_div_ok.
      * eexists. split; [reflexivity|]. split.
        -- intros Hh Hm. split.
           ++ apply Qle_shift_div_l; [exact Hpos|].
              rewrite Qmult_0_l. now apply inject_Z_nonneg.
           ++ apply Qle_shift_div_r; [exact Hpos|].
              rewrite Qmult_1_l, <- Zle_Qle. lia.
        -- intros Hle. lia.
      * intros H0. rewrite H0 in Hpos. now apply Qlt_irrefl in Hpos.
    + exists 0%Q. split; [reflexivity|].
      split; [intros _ _; split; discriminate | reflexivity].
Qed.

(** ** Rate limiter *)

(** X19.  After [acquire], the retained request times are the new
    reading together with old ones, all within the last second; whenever
    more than [burst_capacity] of them are retained the call sleeps, for
    a positive time ([request_times[0]] exists and the test
    [sleep_time > 0] never fails), of at most one second when no recorded
    time lies in the future; otherwise it goes on at once. *)
Theorem acquire_sleeps_on_burst (current_time : Q) (self : RateLimitManager) :
  let out := acquire current_time self in
  let times := request_times (snd out) in
  In current_time times /\
  (forall t, In t times ->
     (current_time - 1 < t)%Q /\
     (t = current_time \/ In t (request_times self))) /\
  burst_capacity (snd out) = burst_capacity self /\
  ((burst_capacity self < Z.of_nat (length times))%Z ->
   exists s, fst out = Sleeps s /\ (0 < s)%Q /\
             ((forall t, In t (request_times self) -> (t <= current_time)%Q) ->
              (s <= 1)%Q)) /\
  ((Z.of_nat (length times) <= burst_capacity self)%Z -> fst out = Proceeds).
Proof.
  unfold acquire.
  set (times := List.filter (fun t => Qltb (current_time - 1.0) t)
                  (request_times self ++ [current_time])).
  assert (Hnew : In current_time times).
  { apply filter_In. split.
    - apply in_or_app. right. now left.
    - apply Qltb_lt. lra. }
  assert (Hall : forall t, In t times ->
             (current_time - 1 < t)%Q /\
             (t = current_time \/ In t (request_times self))).
  { intros t Hin. apply filter_In in Hin as [Hin Hlt].
    apply Qltb_lt in Hlt. split; [lra|].
    apply in_app_or in Hin as [Hin|[<-|[]]]; auto. }
  cbv zeta. cbn [burst_capacity].
  destruct (burst_capacity self <? Z.of_nat (length times))%Z eqn:Eb.
  - apply Z.ltb_lt in Eb. destruct times as [|first rest] eqn:Et; [destruct Hnew|].
    destruct (Hall first (or_introl eq_refl)) as [Hlt Hfrom].
    assert (Hs : (0 < first + 1.0 - current_time)%Q) by lra.
    pose proof Hs as Hs'. apply Qltb_lt in Hs'. rewrite Hs'. simpl.
    split; [exact Hnew|]. split; [exact Hall|]. split; [reflexivity|].
    split.
    + intros _. eexists. split; [reflexivity|]. split; [exact Hs|].
      intros Hpast. destruct Hfrom as [->|Hin]; [lra|].
      specialize (Hpast _ Hin). lra.
    + simpl in Eb. intros Hle. simpl in Hle. lia.
  - apply Z.ltb_ge in Eb. simpl.
    split; [exact Hnew|]. split; [exact Hall|]. split; [reflexivity|].
    split; [intros Hlt; lia | reflexivity].
Qed.

(** ** Concurrency level *)

Lemma half_bounds (n : Z) : (0 <= n)%Z -> (0 <= n / 2 <= n)%Z.
Proof. intros H. Z.div_mod_to_equations. lia. Qed.

Lemma int_scale_exact_bounds (n : Z) (f : Q) (r : Z) :
  int_scale_exact n f = Ok r -> (0 <= n)%Z -> (0 <= f <= 1)%Q ->
  (0 <= r <= n)%Z.
Proof.
  unfold int_scale_exact. intros [= <-] Hn [H0 H1].
  destruct f as [p d]. unfold Qle in H0, H1. simpl in *.
  split.
  - apply Z.quot_pos; nia.
  - apply Z.quot_le_upper_bound; nia.
Qed.

(** X20.  For [max_concurrent_requests >= 1] (and a scaling [int(n * f)]
    that, for n >= 0 and 0 <= f <= 1, lands between 0 and n),
    [calculate_optimal_concurrency] returns a level between 1 and
    [max(2, max_concurrent_requests)] for every system load, also when
    reading the load raises; on an unloaded system (cpu at most 60,
    memory at most 85, at most 20 connections) it is
    [max_concurrent_requests] itself. *)
Theorem optimal_concurrency_bounds (int_scale : Z -> Q -> result Z)
    (max_concurrent_requests : Z) (load : result system_load) :
  (forall n f r, int_scale n f = Ok r -> (0 <= n)%Z -> (0 <= f <= 1)%Q ->
                 (0 <= r <= n)%Z) ->
  (1 <= max_concurrent_requests)%Z ->
  let level :=
    calculate_optimal_concurrency int_scale max_concurrent_requests load in
  (1 <= level <= Z.max 2 max_concurrent_requests)%Z /\
  (forall l, load = Ok l ->
             (cpu_percent l <= 60)%Q -> (memory_percent l <= 85)%Q ->
             (active_connections l <= 20)%Z ->
             level = max_concurrent_requests).
Proof.
  intros Hscale Hm level. subst level.
  unfold calculate_optimal_concurrency, calculate_optimal_concurrency_body.
  pose proof (half_bounds max_concurrent_requests) as Hhalf.
  destruct load as [l|e]; simpl; [|split; [lia | discriminate]].
  set (M := Z.max 2 max_concurrent_requests).
  assert (Hstep1 :
    forall c1, (if Qltb 80 (cpu_percent l)
                then Ok (Z.max 1 (max_concurrent_requests / 2))
                else if Qltb 60 (cpu_percent l)
                     then let* scaled :=
                            int_scale max_concurrent_requests 0.7%Q in
                          Ok (Z.max 2 scaled)
                     else Ok max_concurrent_requests) = Ok c1 ->
               (1 <= c1 <= M)%Z).
  { intros c1. destruct (Qltb 80 (cpu_percent l)); [intros [= <-]; lia|].
    destruct (Qltb 60 (cpu_percent l)); [|intros [= <-]; lia].
    intros H. bind_inv H. injection H as <-.
    apply Hscale in Ha; [lia | lia | split; discriminate]. }
  split.
  - destruct (if Qltb 80 (cpu_percent l) then _ else _) as [c1|e1] eqn:E1;
      simpl; [|lia].
    specialize (Hstep1 c1 eq_refl).
    set (c2 := if Qltb 85 (memory_percent l) then Z.max 1 (c1 / 2) else c1).
    assert (H2 : (1 <= c2 <= M)%Z).
    { subst c2. pose proof (half_bounds c1).
      destruct (Qltb 85 (memory_percent l)); lia. }
    destruct (20 <? active_connections l)%Z; [|lia].
    destruct (int_scale c2 0.8%Q) as [r|e3] eqn:E3; simpl; [|lia].
    apply Hscale in E3; [lia | lia | split; discriminate].
  - intros l' [= <-] Hc Hmem Hconn.
    assert (E80 : Qltb 80 (cpu_percent l) = false) by (apply Qltb_ge; lra).
    assert (E60 : Qltb 60 (cpu_percent l) = false) by (apply Qltb_ge; lra).
    assert (E85 : Qltb 85 (memory_percent l) = false) by (apply Qltb_ge; lra).
    assert (E20 : (20 <? active_connections l)%Z = false)
      by (apply Z.ltb_ge; lia).
    rewrite E80, E60. simpl. rewrite E85, E20. reflexivity.
Qed.

Lemma optimal_concurrency_bounds_witness :
  let level :=
    calculate_optimal_concurrency int_scale_exact 10
      (Ok {| cpu_percent := 70; memory_percent := 90;
             active_connections := 25 |}) in
  (1 <= level <= 10)%Z.
Proof.
  intros level.
  apply (optimal_concurrency_bounds int_scale_exact 10
           (Ok {| cpu_percent := 70; memory_percent := 90;
                  active_connections := 25 |})).
  - exact int_scale_exact_bounds.
  - lia.
Defined.


(** ** Concurrent detection over a batch of games *)

Lemma metrics_ext (a b : ProcessingMetrics.t) :
  ProcessingMetrics.start_time a = ProcessingMetrics.start_time b ->
  ProcessingMetrics.end_time a = ProcessingMetrics.end_time b ->
  ProcessingMetrics.sports_processed a = ProcessingMetrics.sports_processed b ->
  ProcessingMetrics.games_processed a = ProcessingMetrics.games_processed b ->
  ProcessingMetrics.opportunities_found a
  = ProcessingMetrics.opportunities_found b ->
  ProcessingMetrics.api_calls_made a = ProcessingMetrics.api_calls_made b ->
  ProcessingMetrics.cache_hits a = ProcessingMetrics.cache_hits b ->
  ProcessingMetrics.cache_misses a = ProcessingMetrics.cache_misses b ->
  ProcessingMetrics.errors_encountered a
  = ProcessingMetrics.errors_encountered b ->
  a = b.
Proof. destruct a, b. simpl. intros. now subst. Qed.

Ltac metrics_eq :=
  apply metrics_ext; simpl;
  rewrite ?flat_map_app, ?List.filter_app, ?length_app;
  first [reflexivity | lia].

Section DetectConcurrentFacts.

Variable run_in_executor : value -> result (list ArbitrageOpportunity.t).

Lemma process_single_game_fst (game_data : value)
    (metrics : ProcessingMetrics.t) :
  process_single_game run_in_executor game_data metrics
  = (fst (process_single_game run_in_executor game_data
            ProcessingMetrics.initial),
     ProcessingMetrics.add_errors_encountered
       (if game_error_counted run_in_executor game_data then 1 else 0)
       (ProcessingMetrics.add_games_processed
          (if game_processed run_in_executor game_data then 1 else 0)
          metrics)).
Proof.
  unfold process_single_game, game_error_counted, game_processed.
  destruct (run_in_executor game_data) as [l|e]; simpl.
  - f_equal. metrics_eq.
  - destruct game_data; simpl; f_equal; metrics_eq.
Qed.

Lemma gather_games_normal (games_data : list value)
    (metrics : ProcessingMetrics.t) :
  gather_games run_in_executor games_data metrics
  = (map (fun g => fst (process_single_game run_in_executor g
                          ProcessingMetrics.initial)) games_data,
     ProcessingMetrics.add_errors_encountered
       (Z.of_nat (length (List.filter (game_error_counted run_in_executor)
                            games_data)))
       (ProcessingMetrics.add_games_processed
          (Z.of_nat (length (List.filter (game_processed run_in_executor)
                               games_data)))
          metrics)).
Proof.
  revert metrics. induction games_data as [|g gs IH]; intros metrics.
  - simpl. f_equal. metrics_eq.
  - cbn [gather_games]. rewrite process_single_game_fst, IH.
    cbn [map List.filter]. f_equal.
    destruct (game_error_counted run_in_executor g),
             (game_processed run_in_executor g);
      metrics_eq.
Qed.

Lemma task_opportunities (g : value) :
  match fst (process_single_game run_in_executor g ProcessingMetrics.initial)
  with
  | Ok l => l
  | Raise _ => []
  end = game_opportunities run_in_executor g.
Proof.
  unfold process_single_game, game_opportunities.
  destruct (run_in_executor g); [reflexivity|].
  destruct (py_get g "id" (VStr "unknown")); reflexivity.
Qed.

Lemma collect_results_normal
    (results : list (result (list ArbitrageOpportunity.t)))
    (acc : list ArbitrageOpportunity.t) (metrics : ProcessingMetrics.t) :
  fold_left (fun acc r =>
               match r with
               | Ok l =>
                   (fst acc ++ l,
                    ProcessingMetrics.add_opportunities_found
                      (Z.of_nat (length l)) (snd acc))
               | Raise _ => acc
               end) results (acc, metrics)
  = (acc ++ flat_map (fun r => match r with Ok l => l | Raise _ => [] end)
              results,
     ProcessingMetrics.add_opportunities_found
       (Z.of_nat (length (flat_map (fun r => match r with
                                             | Ok l => l
                                             | Raise _ => []
                                             end) results)))
       metrics).
Proof.
  revert acc metrics. induction results as [|r rs IH]; intros acc metrics.
  - simpl. rewrite app_nil_r. f_equal. metrics_eq.
  - cbn [fold_left flat_map]. destruct r as [l|e]; cbn [fst snd].
    + rewrite IH, <- app_assoc. f_equal.
      metrics_eq.
    + rewrite IH. reflexivity.
Qed.

Lemma detect_arbitrage_concurrent_normal (games_data : list value)
    (metrics : ProcessingMetrics.t) :
  detect_arbitrage_concurrent run_in_executor games_data metrics
  = (flat_map (game_opportunities run_in_executor) games_data,
     metrics_after run_in_executor games_data metrics).
Proof.
  unfold detect_arbitrage_concurrent. rewrite gather_games_normal.
  rewrite collect_results_normal. cbn [app].
  assert (E : flat_map (fun r => match r with Ok l => l | Raise _ => [] end)
                (map (fun g => fst (process_single_game run_in_executor g
                                      ProcessingMetrics.initial)) games_data)
              = flat_map (game_opportunities run_in_executor) games_data).
  { induction games_data as [|g gs IH]; [reflexivity|].
    cbn [map flat_map]. now rewrite IH, task_opportunities. }
  rewrite E. reflexivity.
Qed.

Lemma filter_length_disjoint {A} (p q : A -> bool) (l : list A) :
  (forall x, p x = true -> q x = false) ->
  (length (List.filter p l) + length (List.filter q l) <= length l)%nat.
Proof.
  intros H. induction l as [|x l IH]; simpl; [lia|].
  destruct (p x) eqn:Ep; [rewrite (H x Ep)|destruct (q x)]; simpl; lia.
Qed.

(** X21.  [detect_arbitrage_concurrent] returns the opportunities of the
    games in the order of the games (nothing for a game whose executor
    call raised); it adds the number of returned opportunities to
    [opportunities_found], the number of games whose call returned to
    [games_processed] and the number of dict games whose call raised to
    [errors_encountered]; a game that is no dict and whose call raised is
    counted nowhere, and the counters of the fetch side are untouched. *)
Theorem detect_concurrent_accounting (games_data : list value)
    (metrics : ProcessingMetrics.t) :
  let out := detect_arbitrage_concurrent run_in_executor games_data metrics in
  let processed :=
    length (List.filter (game_processed run_in_executor) games_data) in
  let errors :=
    length (List.filter (game_error_counted run_in_executor) games_data) in
  fst out = flat_map (game_opportunities run_in_executor) games_data /\
  ProcessingMetrics.opportunities_found (snd out)
  = (ProcessingMetrics.opportunities_found metrics
     + Z.of_nat (length (fst out)))%Z /\
  ProcessingMetrics.games_processed (snd out)
  = (ProcessingMetrics.games_processed metrics + Z.of_nat processed)%Z /\
  ProcessingMetrics.errors_encountered (snd out)
  = (ProcessingMetrics.errors_encountered metrics + Z.of_nat errors)%Z /\
  (processed + errors <= length games_data)%nat /\
  ((forall g, In g games_data -> exists d, g = VDict d) ->
   (processed + errors = length games_data)%nat) /\
  ProcessingMetrics.sports_processed (snd out)
  = ProcessingMetrics.sports_processed metrics /\
  ProcessingMetrics.api_calls_made (snd out)
  = ProcessingMetrics.api_calls_made metrics.
Proof.
  cbv zeta. rewrite detect_arbitrage_concurrent_normal. unfold metrics_after. simpl.
  repeat split.
  - apply filter_length_disjoint. intros g.
    unfold game_processed, game_error_counted.
    now destruct (run_in_executor g).
  - intros Hdict. induction games_data as [|g gs IH]; [reflexivity|].
    destruct (Hdict g (or_introl eq_refl)) as [d ->].
    cbn [List.filter]. unfold game_processed at 1, game_error_counted at 1.
    destruct (run_in_executor (VDict d)); cbn [length];
      (rewrite <- IH; [lia | intros g' Hg'; apply Hdict; now right]).
Qed.

(** X22.  Chunked processing changes nothing: running
    [process_games_chunk] on a first chunk and then, with the metrics it
    leaves, on a second chunk gives the same opportunities in the same
    order and the same metrics as one run over both chunks. *)
Theorem chunked_processing_equivalent (chunk1 chunk2 : list value)
    (metrics : ProcessingMetrics.t) :
  let out1 := process_games_chunk run_in_executor chunk1 metrics in
  let out2 := process_games_chunk run_in_executor chunk2 (snd out1) in
  detect_arbitrage_concurrent run_in_executor (chunk1 ++ chunk2) metrics
  = (fst out1 ++ fst out2, snd out2).
Proof.
  cbv zeta. unfold process_games_chunk.
  rewrite !detect_arbitrage_concurrent_normal. cbn [fst snd].
  rewrite flat_map_app. f_equal. unfold metrics_after.
  metrics_eq.
Qed.

End DetectConcurrentFacts.


(** ** One source fetch: quota, breaker and metrics together *)

Lemma consume_quota_raises (cost : option Z) (now : datetime)
    (self : APIQuotaManager) (e : exn) :
  fst (consume_quota cost now self) = Raise e ->
  snd (consume_quota cost now self) = reset_windows now self.
Proof.
  unfold consume_quota. cbv zeta.
  destruct (_ <? _)%Z; [reflexivity|].
  destruct (_ <? _)%Z; [reflexivity | discriminate].
Qed.

Lemma reset_windows_idem (now : datetime) (self : APIQuotaManager) :
  reset_windows now (reset_windows now self) = reset_windows now self.
Proof.
  apply reset_windows_in_window. apply reset_windows_effect.
Qed.

Section FetchSingleSportFacts.

Variable _fetch_sport_odds : string -> result value.

Lemma fetch_quota_exhausted (sport_key : string) (now : datetime)
    (t t_after : Q) (self : ParallelArbitrageProcessor) (e : exn) :
  fst (consume_quota None now (quota_manager self)) = Raise e ->
  fetch_single_sport _fetch_sport_odds sport_key now t t_after self
  = ((sport_key, None),
     {| quota_manager := reset_windows now (quota_manager self);
        circuit_breaker :=
          record_failure (service_name_of sport_key) t (circuit_breaker self);
        metrics :=
          ProcessingMetrics.add_errors_encountered 1 (metrics self) |}).
Proof.
  intros He. unfold fetch_single_sport.
  pose proof (consume_quota_raises _ _ _ _ He) as Hs.
  destruct (consume_quota None now (quota_manager self)) as [r q].
  simpl in He, Hs. subst r q. reflexivity.
Qed.

Lemma fetch_repeatedly_exhausted (n : nat) (sport_key : string)
    (now : datetime) (t t_after : Q) (self : ParallelArbitrageProcessor)
    (e : exn) :
  fst (consume_quota None now (quota_manager self)) = Raise e ->
  let self' :=
    fetch_repeatedly _fetch_sport_odds n sport_key now t t_after self in
  circuit_breaker self'
  = fail_times n (service_name_of sport_key) t (circuit_breaker self) /\
  quota_manager self'
  = match n with
    | O => quota_manager self
    | S _ => reset_windows now (quota_manager self)
    end /\
  metrics self'
  = ProcessingMetrics.add_errors_encountered (Z.of_nat n) (metrics self).
Proof.
  revert self. induction n as [|n IH]; intros self He.
  - simpl. repeat split. metrics_eq.
  - cbn [fetch_repeatedly]. rewrite (fetch_quota_exhausted _ _ _ _ _ _ He).
    cbn [snd].
    match goal with |- context [fetch_repeatedly _ n _ _ _ _ ?s] =>
      destruct (IH s) as (Hb & Hq & Hm) end.
    { cbn [quota_manager]. now rewrite <- consume_quota_reset. }
    cbv zeta in *. rewrite Hb, Hq, Hm. cbn [quota_manager circuit_breaker metrics fail_times].
    split; [reflexivity|]. split.
    + destruct n; [reflexivity | apply reset_windows_idem].
    + metrics_eq.
Qed.

(** X23.  A quota error counts as a failure of the source: while
    [consume_quota] raises, [n >= 1] runs of [fetch_single_sport] for a
    sport return no data without fetching anything, record [n] failures
    of the sport's service at the breaker (which opens its circuit once
    the count reaches [failure_threshold] and moves the last-failure time
    to the latest run), add [n] to [errors_encountered], leave
    [api_calls_made] alone and leave the quota counters as the window
    rollover left them. *)
Theorem quota_errors_trip_breaker (n : nat) (sport_key : string)
    (now : datetime) (t t_after : Q) (self : ParallelArbitrageProcessor)
    (e : exn) :
  fst (consume_quota None now (quota_manager self)) = Raise e ->
  (1 <= n)%nat ->
  let service := service_name_of sport_key in
  let self' :=
    fetch_repeatedly _fetch_sport_odds n sport_key now t t_after self in
  fst (fetch_single_sport _fetch_sport_odds sport_key now t t_after self)
  = (sport_key, None) /\
  circuit_breaker self' = fail_times n service t (circuit_breaker self) /\
  (service ∈ open_circuits (circuit_breaker self') <->
   service ∈ open_circuits (circuit_breaker self) \/
   (failure_threshold (circuit_breaker self)
    <= default 0%Z (failure_counts (circuit_breaker self) !! service)
       + Z.of_nat n)%Z) /\
  last_failure_times (circuit_breaker self') !! service = Some t /\
  quota_manager self' = reset_windows now (quota_manager self) /\
  ProcessingMetrics.errors_encountered (metrics self')
  = (ProcessingMetrics.errors_encountered (metrics self) + Z.of_nat n)%Z /\
  ProcessingMetrics.api_calls_made (metrics self')
  = ProcessingMetrics.api_calls_made (metrics self).
Proof.
  intros He Hn service self'.
  destruct (fetch_repeatedly_exhausted n sport_key now t t_after self e He)
    as (Hb & Hq & Hm).
  fold self' in Hb, Hq, Hm. fold service in Hb.
  destruct (fail_times_effect n service t (circuit_breaker self))
    as (_ & Ho & _ & _ & Hl).
  cbv zeta in Ho, Hl. rewrite <- Hb in Ho, Hl.
  split; [now rewrite (fetch_quota_exhausted _ _ _ _ _ _ He)|].
  split; [exact Hb|]. split.
  { rewrite Ho. split; (intros [H|H]; [now left | right]); [tauto | tauto]. }
  split; [now apply Hl|]. split.
  { rewrite Hq. destruct n; [lia | reflexivity]. }
  rewrite Hm. split; reflexivity.
Qed.

(** X24.  The quota is charged before the breaker is asked: a run of
    [fetch_single_sport] inside the quota window, with quota left, for a
    sport whose circuit is open and still inside its recovery timeout
    returns no data, fetches nothing, leaves breaker and metrics as they
    were, and still adds [per_request_cost] to both usage counters. *)
Theorem blocked_fetch_consumes_quota (sport_key : string) (now : datetime)
    (t t_after : Q) (self : ParallelArbitrageProcessor) :
  let service := service_name_of sport_key in
  let quota := quota_manager self in
  let c := per_request_cost quota in
  in_window now quota ->
  (daily_usage quota + c <= daily_limit quota)%Z ->
  (hourly_usage quota + c <= hourly_limit quota)%Z ->
  service ∈ open_circuits (circuit_breaker self) ->
  (t - default 0%Q (last_failure_times (circuit_breaker self) !! service)
   <= recovery_timeout (circuit_breaker self))%Q ->
  let out :=
    fetch_single_sport _fetch_sport_odds sport_key now t t_after self in
  fst out = (sport_key, None) /\
  circuit_breaker (snd out) = circuit_breaker self /\
  metrics (snd out) = metrics self /\
  daily_usage (quota_manager (snd out)) = (daily_usage quota + c)%Z /\
  hourly_usage (quota_manager (snd out)) = (hourly_usage quota + c)%Z /\
  get_remaining_quota (quota_manager (snd out))
  = (get_remaining_quota quota - c)%Z.
Proof.
  intros service quota c Hwin Hd Hh Hopen Ht out. subst out.
  unfold fetch_single_sport. fold service. fold quota.
  destruct (consume_quota_cases None now quota Hwin)
    as [(Hd' & _)|[(_ & Hh' & _)|(_ & _ & ->)]].
  - simpl in Hd'. fold c in Hd'. lia.
  - simpl in Hh'. fold c in Hh'. lia.
  - rewrite (is_open_blocks _ _ _ Hopen Ht). simpl.
    unfold get_remaining_quota. simpl. fold c. repeat split. lia.
Qed.

End FetchSingleSportFacts.

Lemma quota_errors_trip_breaker_witness :
  let self :=
    {| quota_manager := new_quota 0 100 1 {| hour := 9; date := 100 |};
       circuit_breaker := new_breaker 5 60;
       metrics := ProcessingMetrics.initial |} in
  "odds_api_basketball_wnba"
  ∈ open_circuits
      (circuit_breaker
         (fetch_repeatedly (fun _ => Ok (VDict [])) 5 "basketball_wnba"
            {| hour := 9; date := 100 |} 10 11 self)).
Proof.
  intros self.
  destruct (quota_errors_trip_breaker (fun _ => Ok (VDict [])) 5
              "basketball_wnba"
              {| hour := 9; date := 100 |} 10 11 self DailyQuotaExceeded)
    as (_ & _ & Ho & _); [reflexivity | lia |].
  apply Ho. right. vm_compute. discriminate.
Defined.

Lemma blocked_fetch_consumes_quota_witness :
  let now := {| hour := 9; date := 100 |} in
  let self :=
    {| quota_manager := new_quota 1000 100 1 now;
       circuit_breaker :=
         fail_times 5 "odds_api_basketball_wnba" 0 (new_breaker 5 60);
       metrics := ProcessingMetrics.initial |} in
  get_remaining_quota
    (quota_manager
       (snd (fetch_single_sport (fun _ => Ok (VDict [])) "basketball_wnba"
               now 30 31 self)))
  = 999%Z.
Proof.
  intros now self.
  destruct (blocked_fetch_consumes_quota (fun _ => Ok (VDict []))
              "basketball_wnba" now 30 31 self)
    as (_ & _ & _ & _ & _ & H).
  - split; reflexivity.
  - simpl. lia.
  - simpl. lia.
  - apply (bool_decide_unpack _). vm_compute. exact I.
  - vm_compute. discriminate.
  - exact H.
Defined.


(** ** The fetch cycle when no task is pending *)

Lemma wait_for_gather_done {A B} (f : A -> task_state B) (g : A -> B)
    (l : list A) :
  (forall x, In x l -> f x = Done (g x)) ->
  wait_for_gather (map f l) = Ok (map g l).
Proof.
  unfold wait_for_gather. induction l as [|x l IH]; intros H; [reflexivity|].
  cbn [map mapM]. rewrite (H x (or_introl eq_refl)). cbn [bind].
  rewrite IH by (intros y Hy; apply H; now right). reflexivity.
Qed.

Lemma collect_fetched (payload : string -> option value) (l : list string)
    (results : gmap string value) (n : nat) :
  let out :=
    fold_left (fun acc task =>
                 match snd task with
                 | Some r => (<[fst task := r]> (fst acc), S (snd acc))
                 | None => acc
                 end) (map (fun s => (s, payload s)) l) (results, n) in
  (forall s, fst out !! s
             = match (if existsb (String.eqb s) l then payload s else None)
               with
               | Some v => Some v
               | None => results !! s
               end) /\
  snd out = (n + length (List.filter (fun s => bool_decide (is_Some (payload s))) l))%nat.
Proof.
  revert results n. induction l as [|x l IH]; intros results n.
  - simpl. split; [reflexivity | lia].
  - cbn [map fold_left fst snd].
    destruct (payload x) as [v|] eqn:Ex.
    + destruct (IH (<[x := v]> results) (S n)) as [Hm Hn]. cbv zeta in *.
      split.
      * intros s. rewrite Hm. cbn [existsb].
        destruct (String.eqb s x) eqn:Es.
        -- apply String.eqb_eq in Es. subst s. rewrite Ex. simpl.
           rewrite lookup_insert_eq.
           now destruct (existsb (String.eqb x) l).
        -- apply String.eqb_neq in Es. simpl.
           rewrite lookup_insert_ne by congruence. reflexivity.
      * rewrite Hn. cbn [List.filter]. rewrite Ex.
        rewrite bool_decide_eq_true_2 by eauto. simpl. lia.
    + destruct (IH results n) as [Hm Hn]. cbv zeta in *. split.
      * intros s. rewrite Hm. cbn [existsb].
        destruct (String.eqb s x) eqn:Es; [|reflexivity].
        apply String.eqb_eq in Es. subst s. rewrite Ex. simpl.
        now destruct (existsb (String.eqb x) l).
      * rewrite Hn. cbn [List.filter]. rewrite Ex.
        rewrite bool_decide_eq_false_2; [reflexivity|].
        intros [? ?]. discriminate.
Qed.

(** X25.  When every task of the cycle is done by the deadline, the
    result of [fetch_multiple_sports_concurrent] holds exactly the
    sports of the list whose fetch returned data, each with its data,
    and [sports_processed] grows by the number of list entries with data
    (a sport listed twice is counted twice). *)
Theorem fetch_cycle_keeps_successes
    (fetch_single_sport : string -> task_state (string * option value))
    (payload : string -> option value) (sports_list : list string) :
  (forall s, In s sports_list -> fetch_single_sport s = Done (s, payload s)) ->
  let out := fetch_multiple_sports_concurrent fetch_single_sport sports_list in
  (forall s, fst out !! s
             = if existsb (String.eqb s) sports_list then payload s
               else None) /\
  snd out
  = length (List.filter (fun s => bool_decide (is_Some (payload s)))
              sports_list).
Proof.
  intros Hdone. unfold fetch_multiple_sports_concurrent.
  rewrite (wait_for_gather_done _ (fun s => (s, payload s)) _ Hdone).
  destruct (collect_fetched payload sports_list ∅ 0) as [Hm Hn].
  cbv zeta in *. split.
  - intros s. rewrite Hm.
    destruct (if existsb (String.eqb s) sports_list then payload s else None);
      [reflexivity | apply lookup_empty].
  - rewrite Hn. reflexivity.
Qed.

Lemma fetch_cycle_keeps_successes_witness :
  let out :=
    fetch_multiple_sports_concurrent mock_fetch_single_sport
      ["basketball_wnba"; "failing_sport"; "basketball_nba"] in
  fst out !! "failing_sport" = None /\ snd out = 2%nat.
Proof.
  intros out.
  destruct (fetch_cycle_keeps_successes mock_fetch_single_sport
              (fun s => match mock_fetch_single_sport s with
                        | Done (_, r) => r
                        | Pending => None
                        end)
              ["basketball_wnba"; "failing_sport"; "basketball_nba"])
    as [Hm Hn].
  - intros s [<-|[<-|[<-|[]]]]; reflexivity.
  - split; [exact (Hm "failing_sport") | exact Hn].
Defined.


(** * Further properties of the cross-market analyzer *)

(** X26.  [get_correlation] is symmetric in its two markets, it is one
    of the three stored correlations or 0.0, and it is 0.0 for a market
    paired with itself. *)
Theorem get_correlation_symmetric (self : CorrelationMatrix)
    (market1 market2 : string) :
  get_correlation self market1 market2 = get_correlation self market2 market1 /\
  get_correlation self market1 market1 = 0.0%Q /\
  (get_correlation self market1 market2 = h2h_spread_correlation self \/
   get_correlation self market1 market2 = h2h_totals_correlation self \/
   get_correlation self market1 market2 = spread_totals_correlation self \/
   get_correlation self market1 market2 = 0.0%Q).
Proof.
  split; [|split].
  - unfold get_correlation.
    rewrite (orb_comm (pair_eqb (market1, market2) ("h2h", "spreads"))),
            (orb_comm (pair_eqb (market1, market2) ("h2h", "totals"))),
            (orb_comm (pair_eqb (market1, market2) ("spreads", "totals"))).
    reflexivity.
  - unfold get_correlation, pair_eqb. cbn [fst snd].
    destruct (String.eqb market1 "h2h") eqn:E1.
    + apply String.eqb_eq in E1. subst. reflexivity.
    + destruct (String.eqb market1 "spreads") eqn:E2; [|reflexivity].
      apply String.eqb_eq in E2. subst. reflexivity.
  - unfold get_correlation.
    repeat match goal with |- context [if ?c then _ else _] =>
      destruct c end; auto.
Qed.

(** X27.  The qualitative level and the recommended stake of an
    assessment agree: [assess_cross_market_risk] returns an assessment
    for every opportunity; when its level is "low" the stake is 10% or
    5%, when it is "high" the stake is 2% (1% for the error assessment),
    and a stake of 10% is only recommended at level "low". *)
Theorem risk_level_matches_stake (opportunity : CrossMarketOpportunity.t) :
  exists a,
    assess_cross_market_risk opportunity = Ok a /\
    (get_risk_level a = "low" ->
     RiskAssessment.recommended_stake_percentage a = 0.1%Q \/
     RiskAssessment.recommended_stake_percentage a = 0.05%Q) /\
    (get_risk_level a = "high" ->
     RiskAssessment.recommended_stake_percentage a = 0.02%Q \/
     RiskAssessment.recommended_stake_percentage a = 0.01%Q) /\
    (RiskAssessment.recommended_stake_percentage a = 0.1%Q ->
     get_risk_level a = "low").
Proof.
  unfold assess_cross_market_risk.
  destruct (assess_cross_market_risk_body opportunity) as [a|e] eqn:Hbody;
    simpl.
  - exists a. split; [reflexivity|].
    unfold assess_cross_market_risk_body in Hbody. bind_inv Hbody.
    injection Hbody as <-. unfold get_risk_level. simpl.
    set (overall := (_ + _ + _)%Q).
    destruct (Qltb overall 0.2) eqn:E2.
    { apply Qltb_lt in E2.
      assert (E3 : Qltb overall 0.3 = true) by (apply Qltb_lt; lra).
      rewrite E3. repeat split; auto. discriminate. }
    apply Qltb_ge in E2.
    destruct (Qltb overall 0.5) eqn:E5.
    { apply Qltb_lt in E5.
      assert (E7 : Qltb overall 0.7 = true) by (apply Qltb_lt; lra).
      rewrite E7. destruct (Qltb overall 0.3);
        repeat split; auto; discriminate. }
    apply Qltb_ge in E5.
    assert (E3 : Qltb overall 0.3 = false) by (apply Qltb_ge; lra).
    rewrite E3. destruct (Qltb overall 0.7);
      repeat split; auto; discriminate.
  - exists risk_calculation_error. split; [reflexivity|].
    unfold get_risk_level. simpl. repeat split; auto; discriminate.
Qed.

(** X28.  [adjust_correlation_for_context] keeps a correlation inside
    [-1, 1]: whenever the adjustments go through, the result is clamped
    to that range; when they raise (a context that is no dict, a weather
    entry that cannot hold a str) the base correlation comes back
    unchanged, so a base inside [-1, 1] gives a result inside [-1, 1]
    for every context. *)
Theorem adjusted_correlation_in_range (base_correlation : Q)
    (context : value) :
  let r := adjust_correlation_for_context base_correlation context in
  (forall a, adjust_correlation_for_context_body base_correlation context
             = Ok a -> r = a /\ (-1 <= r <= 1)%Q) /\
  (forall e, adjust_correlation_for_context_body base_correlation context
             = Raise e -> r = base_correlation) /\
  ((-1 <= base_correlation <= 1)%Q -> (-1 <= r <= 1)%Q) /\
  ((exists d, context = VDict d /\ assoc_str "weather" d = None) ->
   (-1 <= r <= 1)%Q).
Proof.
  assert (Hclamp : forall a,
             adjust_correlation_for_context_body base_correlation context
             = Ok a -> (-1 <= a <= 1)%Q).
  { intros a H. unfold adjust_correlation_for_context_body in H.
    bind_inv H. bind_inv H. bind_inv H. bind_inv H. bind_inv H.
    injection H as <-. split.
    - apply Qle_trans with (-1.0)%Q; [discriminate | apply py_max_ge_l].
    - apply py_max_lub; [discriminate|].
      apply Qle_trans with 1.0%Q; [apply py_min_le_l | discriminate]. }
  cbv zeta. unfold adjust_correlation_for_context.
  destruct (adjust_correlation_for_context_body base_correlation context)
    as [a|e] eqn:Hbody.
  - split; [intros a' [= <-]; split; [reflexivity | now apply Hclamp]|].
    split; [discriminate|]. split; intros _; now apply Hclamp.
  - split; [discriminate|]. split; [reflexivity|]. split; [tauto|].
    intros (d & -> & Hw). exfalso.
    unfold adjust_correlation_for_context_body in Hbody.
    simpl in Hbody. rewrite Hw in Hbody. simpl in Hbody. discriminate.
Qed.

(** ** Spread-totals correlation *)

Lemma py_sum_nonneg_le (l : list Q) :
  Forall (fun x => 0 <= x)%Q l -> (0 <= py_sum l)%Q.
Proof.
  induction 1 as [|x l Hx _ IH].
  - rewrite py_sum_nil. apply Qle_refl.
  - rewrite py_sum_cons. lra.
Qed.

Lemma pop_variance_nonneg (xs : list Q) : (0 <= pop_variance xs)%Q.
Proof.
  unfold pop_variance. cbv zeta.
  set (n := inject_Z (Z.of_nat (length xs))).
  set (sq := py_sum _).
  assert (Hsq : (0 <= sq)%Q).
  { apply py_sum_nonneg_le. apply List.Forall_forall. intros y Hy.
    apply in_map_iff in Hy as (x & <- & _). cbv beta.
    match goal with |- (0 <= ?z * ?z)%Q => generalize z end.
    intros z. nra. }
  assert (Hn : (0 <= n)%Q) by (apply inject_Z_nonneg; lia).
  destruct (Qeq_dec n 0) as [E|E].
  - unfold Qdiv. rewrite E. unfold Qinv. simpl. lra.
  - apply Qle_shift_div_l; [|lra].
    destruct (Qlt_le_dec 0 n) as [H|H]; [exact H|].
    exfalso. apply E. lra.
Qed.

Lemma np_var_exact_nonneg (l : list value) (v : Q) :
  np_var_exact l = Ok v -> (0 <= v)%Q.
Proof.
  unfold np_var_exact. intros H. bind_inv H. injection H as <-.
  apply pop_variance_nonneg.
Qed.

(** X29.  [calculate_spread_totals_correlation] returns, for every game
    data, a correlation of at least half the base value 0.38 (the
    variance factor is floored at 0.5), the base value itself when fewer
    than two spread or totals lines are quoted or when anything raises,
    and at most the base value when the variances [np.var] returns are
    non-negative. *)
Theorem spread_totals_correlation_bounds (np_var : list value -> result Q)
    (game_data : value) :
  (forall l v, np_var l = Ok v -> (0 <= v)%Q) ->
  let r := calculate_spread_totals_correlation np_var game_data in
  (0.19 <= r <= 0.38)%Q /\
  (forall e, calculate_spread_totals_correlation_body np_var game_data
             = Raise e -> r = base_spread_totals) /\
  (forall lines, collect_lines game_data = Ok lines ->
     (length (fst lines) < 2)%nat \/ (length (snd lines) < 2)%nat ->
     r = base_spread_totals).
Proof.
  intros Hvar. cbv zeta. unfold calculate_spread_totals_correlation.
  destruct (calculate_spread_totals_correlation_body np_var game_data)
    as [r|e] eqn:Hbody.
  - unfold calculate_spread_totals_correlation_body in Hbody.
    bind_inv Hbody.
    destruct ((length (fst a) <? 2)%nat || (length (snd a) <? 2)%nat) eqn:El.
    + injection Hbody as <-. split; [split; discriminate|].
      split; [discriminate | reflexivity].
    + bind_inv Hbody. bind_inv Hbody. injection Hbody as <-.
      apply orb_false_iff in El as [E1 E2].
      apply Nat.ltb_ge in E1, E2.
      apply Hvar in Ha0, Ha1. split; [|split; [discriminate|]].
      * set (f := py_max 0.5 _).
        assert (Hf : (0.5 <= f <= 1)%Q).
        { split; [apply py_max_ge_l|].
          apply py_max_lub; [discriminate | lra]. }
        unfold base_spread_totals. lra.
      * intros lines Hl. rewrite Ha in Hl. injection Hl as <-.
        intros [H|H]; lia.
  - split; [split; discriminate|]. split; [reflexivity|].
    intros lines Hl _. reflexivity.
Qed.

Lemma spread_totals_correlation_bounds_witness :
  (0.19 <= calculate_spread_totals_correlation np_var_exact lines_game
   <= 0.38)%Q.
Proof.
  apply (spread_totals_correlation_bounds np_var_exact lines_game).
  exact np_var_exact_nonneg.
Defined.

(** ** Kelly stakes *)



